(** * proc_module_arch.c: the /proc/student_info read handler

    A shallow embedding of [src/modules/proc_module_arch.c] (a Linux kernel
    module for x86_64 Arch Linux, LP64: [int] is 32 bits, [long],
    [unsigned long], [size_t], [ssize_t] and [loff_t] are 64 bits) and the
    properties of its read handler [proc_read].

    The module's globals are a record that the handlers pass along; the
    kernel services the handlers call ([snprintf], [copy_to_user],
    [printk], [proc_create], the [jiffies] counter) are modelled after the
    kernel's own definitions of them. *)

From Stdlib Require Import ZArith String Ascii List Bool Lia.
Import ListNotations.

Local Open Scope string_scope.
Local Open Scope Z_scope.

(* ================================================================= *)
(** ** Machine integers *)

Module CInt.

Definition INT_MAX : Z := 2147483647.
Definition INT_MIN : Z := -2147483648.
Definition ULONG_MODULUS : Z := 2 ^ 64.

(** Conversion to [int]: two's complement wrap-around, which is what the
    kernel's [-fno-strict-overflow] build gives signed arithmetic. *)
Definition to_int (z : Z) : Z := (z + 2 ^ 31) mod 2 ^ 32 - 2 ^ 31.

(** Conversion to [unsigned long]. *)
Definition to_ulong (z : Z) : Z := z mod ULONG_MODULUS.

Definition is_int (z : Z) : Prop := INT_MIN <= z <= INT_MAX.
Definition is_ulong (z : Z) : Prop := 0 <= z < ULONG_MODULUS.

End CInt.
Import CInt.

(* ================================================================= *)
(** ** Strings *)

Definition LF : string := String (ascii_of_nat 10) "".
Definition NUL : string := String (ascii_of_nat 0) "".

Definition strlen (s : string) : Z := Z.of_nat (String.length s).

(** The first [n] bytes of [s]. *)
Definition take (n : Z) (s : string) : string :=
  substring 0 (Z.to_nat n) s.

(** [s] without its first [n] bytes. *)
Definition drop (n : Z) (s : string) : string :=
  substring (Z.to_nat n) (String.length s - Z.to_nat n) s.

(** Whether [s] holds the byte [c]. *)
Fixpoint mem_char (c : ascii) (s : string) : bool :=
  match s with
  | EmptyString => false
  | String d r => Ascii.eqb c d || mem_char c r
  end.

(** The lines of a text: the pieces between line feeds. *)
Fixpoint lines_from (cur : string) (s : string) : list string :=
  match s with
  | EmptyString => [cur]
  | String c r =>
      if Ascii.eqb c (ascii_of_nat 10)
      then cur :: lines_from "" r
      else lines_from (cur ++ String c "") r
  end.

Definition lines (s : string) : list string := lines_from "" s.

(* ================================================================= *)
(** ** printf-style formatting, as lib/vsprintf.c does it for the
       directives the module uses *)

Module Printf.

Definition digit (d : Z) : ascii := ascii_of_nat (48 + Z.to_nat d).

(** Decimal digits of a non-negative number, least significant digit
    produced first, as [number()] fills its temporary (which has room
    for every 64-bit value: at most 20 digits). *)
Fixpoint put_dec (room : nat) (n : Z) (acc : string) : string :=
  match room with
  | O => acc
  | S room' =>
      let acc' := String (digit (n mod 10)) acc in
      if n / 10 =? 0 then acc' else put_dec room' (n / 10) acc'
  end.

(** [%lu] of an [unsigned long] value. *)
Definition dec_ulong (n : Z) : string := put_dec 20 n "".

(** [%d] of an [int] value. *)
Definition dec_int (n : Z) : string :=
  if n <? 0 then "-" ++ put_dec 20 (- n) "" else put_dec 20 n "".

(** The variadic arguments, by the C type they are passed at. *)
Inductive arg : Type :=
| ArgStr (s : string)     (* char *: the characters before the NUL *)
| ArgInt (n : Z)          (* int *)
| ArgULong (n : Z).       (* unsigned long *)

(** The whole text a format produces for its arguments; [None] when a
    directive has no argument of its type (undefined in C) or is not one
    of [%s], [%d], [%lu]. *)
Fixpoint vformat (fmt : string) (args : list arg) : option string :=
  match fmt with
  | EmptyString => Some ""
  | String c r =>
      if Ascii.eqb c "%"%char then
        match r with
        | String d r1 =>
            if Ascii.eqb d "s"%char then
              match args with
              | ArgStr s :: args' => option_map (append s) (vformat r1 args')
              | _ => None
              end
            else if Ascii.eqb d "d"%char then
              match args with
              | ArgInt n :: args' =>
                  option_map (append (dec_int n)) (vformat r1 args')
              | _ => None
              end
            else if Ascii.eqb d "l"%char then
              match r1 with
              | String e r2 =>
                  if Ascii.eqb e "u"%char then
                    match args with
                    | ArgULong n :: args' =>
                        option_map (append (dec_ulong n)) (vformat r2 args')
                    | _ => None
                    end
                  else None
              | EmptyString => None
              end
            else None
        | EmptyString => None
        end
      else option_map (String c) (vformat r args)
  end.

(** [snprintf(buf, size, fmt, ...)]: [buf] receives at most [size - 1]
    bytes of the text and a terminating NUL; the return value is the
    length of the WHOLE text, "the number of characters which would be
    generated for the given input, excluding the trailing null"
    (lib/vsprintf.c), as an [int]. The result is the bytes of [buf] that
    were written and that return value. *)
Definition snprintf (size : Z) (fmt : string) (args : list arg)
  : string * Z :=
  let text := match vformat fmt args with Some t => t | None => "" end in
  (take (size - 1) text ++ NUL, to_int (strlen text)).

End Printf.
Import Printf.

(* ================================================================= *)
(** ** Kernel services *)

Definition EFAULT : Z := 14.
Definition ENOMEM : Z := 12.

(** *** The kernel log *)

Inductive loglevel : Type := KERN_ERR | KERN_INFO.

Record log_line : Type := LogLine { ll_level : loglevel; ll_text : string }.

Definition printk (lvl : loglevel) (fmt : string) (args : list arg)
  : log_line :=
  LogLine lvl (match vformat fmt args with Some t => t | None => "" end).

(** *** User memory at the destination of a copy

    [ub_writable] is the number of bytes, counted from the destination
    pointer, that the caller's address space lets the kernel store before a
    store faults; [ub_data] is what the memory at the pointer holds. *)
Record user_buf : Type := UserBuf { ub_writable : Z; ub_data : string }.

(** [copy_to_user(to, from, n)] (include/linux/uaccess.h): returns the
    number of bytes that could NOT be copied, 0 on success.
    [check_copy_size] refuses, without copying, a length above the size of
    the source object when the compiler knows it ([from_size]; [proc_read]
    copies from its local array) and a length above [INT_MAX]; otherwise
    the bytes are stored up to the first one that faults. *)
Definition copy_to_user (to : user_buf) (from : string) (from_size : Z)
    (n : Z) : user_buf * Z :=
  if (from_size <? n) || (INT_MAX <? n) then (to, n)
  else
    let m := Z.min n (Z.max 0 (ub_writable to)) in
    (UserBuf (ub_writable to) (take m from ++ drop m (ub_data to)), n - m).

(* ================================================================= *)
(** ** The module *)

Definition PROC_NAME : string := "student_info".
Definition MAX_SIZE : Z := 1024.

(** The module's globals. [proc_file] is [true] for a non-NULL entry.
    [student_name] holds the characters of the C string; [read_count],
    [group] and [subgroup] are [int], [load_time] is [unsigned long]. *)
Record globals : Type := Globals {
  proc_file : bool;
  read_count : Z;
  load_time : Z;
  student_name : string;
  group : Z;
  subgroup : Z
}.

(** The globals as the initialisers of the source leave them. *)
Definition globals_at_load : globals :=
  Globals false 0 0 "Kuharev Kirill" 9 2.

Definition set_read_count (v : Z) (g : globals) : globals :=
  Globals (proc_file g) v (load_time g) (student_name g) (group g)
          (subgroup g).

Definition set_load_time (v : Z) (g : globals) : globals :=
  Globals (proc_file g) (read_count g) v (student_name g) (group g)
          (subgroup g).

Definition set_proc_file (v : bool) (g : globals) : globals :=
  Globals v (read_count g) (load_time g) (student_name g) (group g)
          (subgroup g).

(** Writes to the module parameters ([module_param], mode 0644), done by
    the host through /sys/module/.../parameters, not by the module. *)
Definition set_student_name (v : string) (g : globals) : globals :=
  Globals (proc_file g) (read_count g) (load_time g) v (group g)
          (subgroup g).

Definition set_group (v : Z) (g : globals) : globals :=
  Globals (proc_file g) (read_count g) (load_time g) (student_name g) v
          (subgroup g).

Definition set_subgroup (v : Z) (g : globals) : globals :=
  Globals (proc_file g) (read_count g) (load_time g) (student_name g)
          (group g) v.

(** The values of [globals] that the C types and [param_set_charp] (which
    refuses a string above 1024 bytes) allow. *)
Record globals_ok (g : globals) : Prop := GlobalsOk {
  ok_read_count : is_int (read_count g);
  ok_load_time : is_ulong (load_time g);
  ok_student_name : strlen (student_name g) <= 1024;
  ok_group : is_int (group g);
  ok_subgroup : is_int (subgroup g)
}.

(** The format of the report, lines 71 to 81 of the source. *)
Definition report_fmt : string :=
  "╔══════════════════════════════════════════════════╗" ++ LF ++
  "║         Student Information                      ║" ++ LF ++
  "╠══════════════════════════════════════════════════╣" ++ LF ++
  "  Name:              %s" ++ LF ++
  "  Group:             %d" ++ LF ++
  "  Subgroup:          %d" ++ LF ++
  "  Module loaded at:  %lu jiffies" ++ LF ++
  "  Module uptime:     %lu seconds" ++ LF ++
  "  Read count:        %d" ++ LF ++
  "  Current jiffies:   %lu" ++ LF ++
  "╚══════════════════════════════════════════════════╝" ++ LF.

(** [jiffies] is volatile and [proc_read] reads it twice: for the uptime
    (line 66) and as an argument of [snprintf] (line 83). *)
Record jiffies_reads : Type := Jiffies { j_uptime : Z; j_report : Z }.

(** What a call of [proc_read] leaves behind. *)
Record read_result : Type := ReadResult {
  rr_ret : Z;                 (* the [ssize_t] returned *)
  rr_ppos : Z;                (* [*ppos] after the call *)
  rr_globals : globals;       (* the globals after the call *)
  rr_user : user_buf;         (* the memory at [ubuf] after the call *)
  rr_log : list log_line      (* the lines the call printed *)
}.

Section Module.

(** The tick rate of the kernel build (CONFIG_HZ), a macro of the kernel
    headers. *)
Variable HZ : Z.

(** [proc_read(file, ubuf, count, ppos)], lines 50 to 98. [g] holds the
    globals at the call, [clk] the two values read from [jiffies], [ubuf]
    the memory at the caller's pointer. *)
Definition proc_read (g : globals) (clk : jiffies_reads)
    (ubuf : user_buf) (count : Z) (ppos : Z) : read_result :=
  if 0 <? ppos then ReadResult 0 ppos g ubuf []
  else
    let g1 := set_read_count (to_int (read_count g + 1)) g in
    let uptime_jiffies := to_ulong (j_uptime clk - load_time g1) in
    let uptime_seconds := uptime_jiffies / HZ in
    let '(buf, len) :=
      snprintf MAX_SIZE report_fmt
        [ ArgStr (student_name g1); ArgInt (group g1); ArgInt (subgroup g1);
          ArgULong (load_time g1); ArgULong uptime_seconds;
          ArgInt (read_count g1); ArgULong (j_report clk) ] in
    let '(ubuf1, uncopied) := copy_to_user ubuf buf MAX_SIZE (to_ulong len) in
    if negb (uncopied =? 0) then
      ReadResult (- EFAULT) ppos g1 ubuf1
        [ printk KERN_ERR
            ("proc_module: Failed to copy data to user space" ++ LF) [] ]
    else
      ReadResult len len g1 ubuf1
        [ printk KERN_INFO
            ("proc_module: /proc/%s read (count: %d)" ++ LF)
            [ ArgStr PROC_NAME; ArgInt (read_count g1) ] ].

(** The local [uptime_seconds] of [proc_read], lines 66 and 67, from the
    value read from [jiffies] and [load_time]. *)
Definition uptime_seconds (jiffies load : Z) : Z :=
  to_ulong (jiffies - load) / HZ.

(** The arguments [proc_read] passes to [snprintf], lines 82 and 83, from
    the globals after the increment. *)
Definition report_args (g : globals) (clk : jiffies_reads) : list arg :=
  [ ArgStr (student_name g); ArgInt (group g); ArgInt (subgroup g);
    ArgULong (load_time g);
    ArgULong (uptime_seconds (j_uptime clk) (load_time g));
    ArgInt (read_count g); ArgULong (j_report clk) ].

(** [proc_module_init], lines 110 to 132. [jiffies] is the counter's
    value at line 115 and [created] tells whether [proc_create] returned
    an entry. The result is the return value, the globals and the lines
    printed. *)
Definition proc_module_init (g : globals) (jiffies : Z) (created : bool)
  : Z * globals * list log_line :=
  let l0 := printk KERN_INFO
              ("proc_module: Initializing for Arch Linux" ++ LF) [] in
  let g1 := set_load_time jiffies g in
  let g2 := set_proc_file created g1 in
  if negb (proc_file g2) then
    (- ENOMEM, g2,
     [ l0;
       printk KERN_ERR ("proc_module: Failed to create /proc/%s" ++ LF)
         [ ArgStr PROC_NAME ] ])
  else
    (0, g2,
     [ l0;
       printk KERN_INFO
         ("proc_module: Successfully created /proc/%s" ++ LF)
         [ ArgStr PROC_NAME ];
       printk KERN_INFO
         ("proc_module: Student: %s, Group: %d, Subgroup: %d" ++ LF)
         [ ArgStr (student_name g2); ArgInt (group g2);
           ArgInt (subgroup g2) ];
       printk KERN_INFO ("proc_module: Load time: %lu jiffies" ++ LF)
         [ ArgULong (load_time g2) ] ]).

(** [proc_module_exit], lines 139 to 148: the lines printed; no global
    is assigned. *)
Definition proc_module_exit (g : globals) : list log_line :=
  ((if proc_file g
    then [ printk KERN_INFO ("proc_module: Removed /proc/%s" ++ LF)
             [ ArgStr PROC_NAME ] ]
    else []) ++
   [ printk KERN_INFO
       ("proc_module: Module unloaded. Total reads: %d" ++ LF)
       [ ArgInt (read_count g) ] ])%list.

End Module.

(** The two lines [proc_read] prints. *)
Definition copy_failed_line : log_line :=
  LogLine KERN_ERR ("proc_module: Failed to copy data to user space" ++ LF).

Definition read_line (count : Z) : log_line :=
  printk KERN_INFO ("proc_module: /proc/%s read (count: %d)" ++ LF)
    [ ArgStr PROC_NAME; ArgInt count ].

(* ================================================================= *)
(** ** The report as lines *)

Definition box_top : string :=
  "╔══════════════════════════════════════════════════╗".
Definition box_title : string :=
  "║         Student Information                      ║".
Definition box_sep : string :=
  "╠══════════════════════════════════════════════════╣".
Definition box_bottom : string :=
  "╚══════════════════════════════════════════════════╝".

(** The seven fields of a report. *)
Record report_fields : Type := Fields {
  f_name : string;
  f_group : Z;
  f_subgroup : Z;
  f_loaded_at : Z;
  f_uptime : Z;
  f_read_count : Z;
  f_jiffies : Z
}.

(** The lines of a report with the fields [f]. *)
Definition report_lines (f : report_fields) : list string :=
  [ box_top; box_title; box_sep;
    "  Name:              " ++ f_name f;
    "  Group:             " ++ dec_int (f_group f);
    "  Subgroup:          " ++ dec_int (f_subgroup f);
    "  Module loaded at:  " ++ dec_ulong (f_loaded_at f) ++ " jiffies";
    "  Module uptime:     " ++ dec_ulong (f_uptime f) ++ " seconds";
    "  Read count:        " ++ dec_int (f_read_count f);
    "  Current jiffies:   " ++ dec_ulong (f_jiffies f);
    box_bottom ].

(** Every line followed by a line feed. *)
Fixpoint unlines (ls : list string) : string :=
  match ls with
  | [] => ""
  | l :: ls' => l ++ LF ++ unlines ls'
  end.

(** The fields [proc_read] renders from the globals [g] (after its
    increment) and the two readings of the clock. *)
Definition fields_of (HZ : Z) (g : globals) (clk : jiffies_reads)
  : report_fields :=
  Fields (student_name g) (group g) (subgroup g) (load_time g)
         (uptime_seconds HZ (j_uptime clk) (load_time g))
         (read_count g) (j_report clk).

Definition report_text (HZ : Z) (g : globals) (clk : jiffies_reads)
  : string :=
  unlines (report_lines (fields_of HZ g clk)).

(** Reading a decimal number back. *)
Fixpoint parse_dec (s : string) (acc : Z) : Z :=
  match s with
  | EmptyString => acc
  | String c r => parse_dec r (10 * acc + (Z.of_nat (nat_of_ascii c) - 48))
  end.

(** Reading a [%d] back. *)
Definition parse_int (s : string) : Z :=
  match s with
  | EmptyString => 0
  | String c r =>
      if Ascii.eqb c "-"%char then - parse_dec r 0 else parse_dec s 0
  end.

(* ================================================================= *)
(** ** Sessions *)

(** What a caller brings to one call: the clock at that moment, its
    memory and the [count] it asks for. *)
Record read_call : Type := ReadCall {
  c_clk : jiffies_reads;
  c_ubuf : user_buf;
  c_count : Z
}.

(** A run of reads that share one file position: each call starts from
    the globals and the position the call before it left. *)
Fixpoint session (HZ : Z) (g : globals) (ppos : Z) (calls : list read_call)
  : list read_result :=
  match calls with
  | [] => []
  | c :: cs =>
      let r := proc_read HZ g (c_clk c) (c_ubuf c) (c_count c) ppos in
      r :: session HZ (rr_globals r) (rr_ppos r) cs
  end.

(* ================================================================= *)
(** ** The host around the module

    What the kernel does with the module: load it (with values for the
    three parameters) and run [proc_module_init]; once the entry exists,
    dispatch reads of /proc/student_info to [proc_read]; store parameter
    values written through sysfs; unload it. *)

Inductive host_event : Type :=
| Insmod (name : string) (grp sub : Z) (jiffies : Z) (created : bool)
| Read (c : read_call) (ppos : Z)
| SetName (s : string)
| SetGroup (v : Z)
| SetSubgroup (v : Z)
| Rmmod.

(** [h_module] is the memory of the module while it is loaded;
    [h_activated] records the clock value of the load (it is not a
    variable of the program). *)
Record host : Type := Host {
  h_module : option globals;
  h_activated : option Z
}.

Definition host_unloaded : host := Host None None.

Definition host_step (HZ : Z) (h : host) (e : host_event) : host :=
  match e, h_module h with
  | Insmod name grp sub jiffies created, None =>
      let g := set_student_name name
                 (set_group grp (set_subgroup sub globals_at_load)) in
      let '(ret, g', _) := proc_module_init g jiffies created in
      if ret =? 0 then Host (Some g') (Some jiffies) else h
  | Read c ppos, Some g =>
      if proc_file g
      then Host (Some (rr_globals
                         (proc_read HZ g (c_clk c) (c_ubuf c) (c_count c)
                            ppos)))
                (h_activated h)
      else h
  | SetName s, Some g => Host (Some (set_student_name s g)) (h_activated h)
  | SetGroup v, Some g => Host (Some (set_group v g)) (h_activated h)
  | SetSubgroup v, Some g => Host (Some (set_subgroup v g)) (h_activated h)
  | Rmmod, Some g => host_unloaded   (* [proc_module_exit] only prints *)
  | _, _ => h
  end.

Definition host_run (HZ : Z) (h : host) (es : list host_event) : host :=
  fold_left (host_step HZ) es h.

(** While the module is loaded its entry exists and [load_time] is the
    clock value of the load. *)
Definition host_inv (h : host) : Prop :=
  forall g, h_module h = Some g ->
            proc_file g = true /\ h_activated h = Some (load_time g).

(** The boundary copy of a fresh read fails: [copy_to_user], called as
    line 86 calls it, leaves bytes uncopied. *)
Definition copy_fails (HZ : Z) (g : globals) (clk : jiffies_reads)
    (ubuf : user_buf) : Prop :=
  let g1 := set_read_count (to_int (read_count g + 1)) g in
  let '(buf, len) := snprintf MAX_SIZE report_fmt (report_args HZ g1 clk) in
  snd (copy_to_user ubuf buf MAX_SIZE (to_ulong len)) <> 0.

(* ================================================================= *)
(** ** Reading a report back *)

(** [s] without the prefix [p], when it starts with it. *)
Fixpoint strip_prefix (p s : string) : option string :=
  match p, s with
  | EmptyString, _ => Some s
  | String c p', String d s' =>
      if Ascii.eqb c d then strip_prefix p' s' else None
  | String _ _, EmptyString => None
  end.

(** [s] without the suffix [suf], when it ends with it. *)
Fixpoint strip_suffix (suf s : string) : option string :=
  if String.eqb s suf then Some ""
  else
    match s with
    | EmptyString => None
    | String c s' => option_map (String c) (strip_suffix suf s')
    end.

(** The value on a line of the form label, value, unit. *)
Definition parse_field (label unit line : string) : option string :=
  match strip_prefix label line with
  | Some v => strip_suffix unit v
  | None => None
  end.

(** The fields of a text of eleven lines laid out as [report_fmt] lays
    them out. *)
Definition parse_report (text : string) : option report_fields :=
  match lines text with
  | [t; ti; sp; n; g; s; l; u; c; j; b; e] =>
      if String.eqb t box_top && String.eqb ti box_title
         && String.eqb sp box_sep && String.eqb b box_bottom
         && String.eqb e ""
      then
        match parse_field "  Name:              " "" n,
              parse_field "  Group:             " "" g,
              parse_field "  Subgroup:          " "" s,
              parse_field "  Module loaded at:  " " jiffies" l,
              parse_field "  Module uptime:     " " seconds" u,
              parse_field "  Read count:        " "" c,
              parse_field "  Current jiffies:   " "" j
        with
        | Some n', Some g', Some s', Some l', Some u', Some c', Some j' =>
            Some (Fields n' (parse_int g') (parse_int s') (parse_dec l' 0)
                    (parse_dec u' 0) (parse_int c') (parse_dec j' 0))
        | _, _, _, _, _, _, _ => None
        end
      else None
  | _ => None
  end.

(** Fields whose numbers are values of their C types and whose name
    stays on its line. *)
Record fields_ok (f : report_fields) : Prop := FieldsOk {
  fok_name : mem_char (ascii_of_nat 10) (f_name f) = false;
  fok_group : is_int (f_group f);
  fok_subgroup : is_int (f_subgroup f);
  fok_loaded_at : is_ulong (f_loaded_at f);
  fok_uptime : is_ulong (f_uptime f);
  fok_read_count : is_int (f_read_count f);
  fok_jiffies : is_ulong (f_jiffies f)
}.

(** The reads among the events of the host that reach line 63: those at
    a position that is not past the start. *)
Fixpoint count_fresh (es : list host_event) : Z :=
  match es with
  | [] => 0
  | Read _ ppos :: es' =>
      (if 0 <? ppos then 0 else 1) + count_fresh es'
  | _ :: es' => count_fresh es'
  end.

(** Events that neither load nor unload the module. *)
Definition stays_loaded (e : host_event) : bool :=
  match e with
  | Insmod _ _ _ _ _ | Rmmod => false
  | _ => true
  end.

(** The module after [insmod] with the given parameter values, when
    [proc_module_init] ran at [jiffies] and [proc_create] succeeded. *)
Definition loaded_with (name : string) (grp sub jiffies : Z) : globals :=
  snd (fst (proc_module_init
              (set_student_name name
                 (set_group grp (set_subgroup sub globals_at_load)))
              jiffies true)).

(* ================================================================= *)
(** ** Sample inputs *)

Module Sample.

(** The tick rate that the expected output in the source assumes. *)
Definition HZ : Z := 1000.

(** The module loaded with its defaults at jiffies 4295123456. *)
Definition loaded : globals :=
  snd (fst (proc_module_init globals_at_load 4295123456 true)).

(** 120 seconds later. *)
Definition clk : jiffies_reads := Jiffies 4295243456 4295243456.

(** A caller with a page of writable memory, and one with none. *)
Definition page : user_buf := UserBuf 4096 "".
Definition bad_pointer : user_buf := UserBuf 0 "".

Fixpoint replicate (n : nat) (c : ascii) : string :=
  match n with
  | O => ""
  | S n' => String c (replicate n' c)
  end.

(** A name of 400 bytes, which [param_set_charp] accepts. *)
Definition long_name : string := replicate 400 "A"%char.

(** A name of 300 bytes: with it the report has 1024 bytes. *)
Definition name_300 : string := replicate 300 "A"%char.

(** The name that [echo "New Name" | sudo tee .../student_name] (line 238
    of the source) stores: it ends in a line feed. *)
Definition name_with_lf : string := "New Name" ++ LF.

End Sample.

(* ================================================================= *)
(** ** Facts about strings *)

Lemma length_append (a b : string) :
  String.length (a ++ b) = (String.length a + String.length b)%nat.
Proof. induction a as [|c a IH]; simpl; [reflexivity | now rewrite IH]. Qed.

Lemma strlen_append (a b : string) : strlen (a ++ b) = strlen a + strlen b.
Proof. unfold strlen. rewrite length_append. lia. Qed.

Lemma strlen_nonneg (s : string) : 0 <= strlen s.
Proof. unfold strlen. lia. Qed.

Lemma substring_0_append (a b : string) :
  substring 0 (String.length a) (a ++ b) = a.
Proof.
  induction a as [|c a IH]; simpl.
  - now destruct b.
  - now rewrite IH.
Qed.

Lemma substring_0_long (n : nat) (s : string) :
  (String.length s <= n)%nat -> substring 0 n s = s.
Proof.
  revert n. induction s as [|c s IH]; intros [|n] H; simpl in *;
    try reflexivity; try lia.
  rewrite IH; [reflexivity | lia].
Qed.

Lemma take_all (n : Z) (s : string) : strlen s <= n -> take n s = s.
Proof.
  unfold take, strlen. intros H. apply substring_0_long. lia.
Qed.

Lemma take_append (a b : string) : take (strlen a) (a ++ b) = a.
Proof.
  unfold take, strlen. rewrite Nat2Z.id. apply substring_0_append.
Qed.

Lemma mem_char_append (c : ascii) (a b : string) :
  mem_char c (a ++ b) = mem_char c a || mem_char c b.
Proof.
  induction a as [|d a IH]; simpl; [reflexivity|].
  now rewrite IH, orb_assoc.
Qed.

Lemma append_assoc (a b c : string) : (a ++ b) ++ c = a ++ (b ++ c).
Proof. induction a as [|d a IH]; simpl; [reflexivity | now rewrite IH]. Qed.

Lemma append_nil_r (a : string) : a ++ "" = a.
Proof. induction a as [|d a IH]; simpl; [reflexivity | now rewrite IH]. Qed.

(** A piece without a line feed, followed by a line feed, is one line. *)
Lemma lines_from_line (a : string) : forall cur rest,
  mem_char (ascii_of_nat 10) a = false ->
  lines_from cur (a ++ LF ++ rest) = (cur ++ a) :: lines_from "" rest.
Proof.
  induction a as [|d a IH]; intros cur rest H.
  - cbn [append LF lines_from]. rewrite Ascii.eqb_refl.
    now rewrite append_nil_r.
  - cbn [mem_char] in H. apply orb_false_elim in H as [Hd Ha].
    change ((String d a) ++ LF ++ rest) with (String d (a ++ LF ++ rest)).
    cbn [lines_from]. rewrite Ascii.eqb_sym, Hd.
    rewrite IH by exact Ha. now rewrite append_assoc.
Qed.

Lemma lines_unlines (ls : list string) :
  Forall (fun l => mem_char (ascii_of_nat 10) l = false) ls ->
  lines (unlines ls) = (ls ++ [""])%list.
Proof.
  unfold lines. induction 1 as [|l ls Hl _ IH]; [reflexivity|].
  cbn [unlines]. rewrite lines_from_line by exact Hl.
  now rewrite IH.
Qed.

(* ================================================================= *)
(** ** Facts about the formatting *)

Lemma strlen_put_dec (room : nat) : forall n acc,
  strlen acc + Z.min 1 (Z.of_nat room) <= strlen (put_dec room n acc)
  <= strlen acc + Z.of_nat room.
Proof.
  induction room as [|room IH]; intros n acc; cbn [put_dec].
  - lia.
  - destruct (n / 10 =? 0).
    + unfold strlen; cbn [String.length]; lia.
    + specialize (IH (n / 10) (String (digit (n mod 10)) acc)).
      unfold strlen in *; cbn [String.length] in IH; lia.
Qed.

Lemma strlen_dec_ulong (n : Z) : 1 <= strlen (dec_ulong n) <= 20.
Proof.
  unfold dec_ulong. pose proof (strlen_put_dec 20 n "") as H.
  change (strlen "") with 0 in H. lia.
Qed.

Lemma strlen_dec_int (n : Z) : 1 <= strlen (dec_int n) <= 21.
Proof.
  unfold dec_int. destruct (n <? 0).
  - rewrite strlen_append. pose proof (strlen_put_dec 20 (- n) "") as H.
    change (strlen "") with 0 in H. change (strlen "-") with 1. lia.
  - pose proof (strlen_put_dec 20 n "") as H.
    change (strlen "") with 0 in H. lia.
Qed.

Lemma digit_not_lf (n : Z) :
  Ascii.eqb (ascii_of_nat 10) (digit (n mod 10)) = false.
Proof.
  pose proof (Z.mod_pos_bound n 10 ltac:(lia)) as H.
  assert (E : n mod 10 = 0 \/ n mod 10 = 1 \/ n mod 10 = 2 \/ n mod 10 = 3 \/
              n mod 10 = 4 \/ n mod 10 = 5 \/ n mod 10 = 6 \/ n mod 10 = 7 \/
              n mod 10 = 8 \/ n mod 10 = 9) by lia.
  repeat destruct E as [E|E]; rewrite E; reflexivity.
Qed.

Lemma put_dec_no_lf (room : nat) : forall n acc,
  mem_char (ascii_of_nat 10) acc = false ->
  mem_char (ascii_of_nat 10) (put_dec room n acc) = false.
Proof.
  induction room as [|room IH]; intros n acc H; cbn [put_dec].
  - exact H.
  - assert (H' : mem_char (ascii_of_nat 10)
                   (String (digit (n mod 10)) acc) = false).
    { cbn [mem_char]. now rewrite digit_not_lf, H. }
    destruct (n / 10 =? 0); [exact H' | now apply IH].
Qed.

Lemma dec_ulong_no_lf (n : Z) :
  mem_char (ascii_of_nat 10) (dec_ulong n) = false.
Proof. now apply put_dec_no_lf. Qed.

Lemma dec_int_no_lf (n : Z) :
  mem_char (ascii_of_nat 10) (dec_int n) = false.
Proof.
  unfold dec_int. destruct (n <? 0).
  - rewrite mem_char_append. now rewrite put_dec_no_lf.
  - now apply put_dec_no_lf.
Qed.

(** What the format of the report produces: the eleven lines. *)
Lemma vformat_report (f : report_fields) :
  vformat report_fmt
    [ ArgStr (f_name f); ArgInt (f_group f); ArgInt (f_subgroup f);
      ArgULong (f_loaded_at f); ArgULong (f_uptime f);
      ArgInt (f_read_count f); ArgULong (f_jiffies f) ]
  = Some (unlines (report_lines f)).
Proof.
  destruct f as [n g s l u c j]. cbn [f_name f_group f_subgroup f_loaded_at
    f_uptime f_read_count f_jiffies report_lines unlines].
  rewrite !append_assoc. reflexivity.
Qed.

Lemma strlen_unlines_report (f : report_fields) :
  strlen (unlines (report_lines f)) =
  698 + strlen (f_name f) + strlen (dec_int (f_group f))
  + strlen (dec_int (f_subgroup f)) + strlen (dec_ulong (f_loaded_at f))
  + strlen (dec_ulong (f_uptime f)) + strlen (dec_int (f_read_count f))
  + strlen (dec_ulong (f_jiffies f)).
Proof.
  cbn [report_lines unlines].
  generalize (dec_int (f_group f)) (dec_int (f_subgroup f))
             (dec_ulong (f_loaded_at f)) (dec_ulong (f_uptime f))
             (dec_int (f_read_count f)) (dec_ulong (f_jiffies f))
             (f_name f).
  intros dg ds dl du dc dj n.
  rewrite !strlen_append.
  change (strlen box_top) with 156. change (strlen box_title) with 56.
  change (strlen box_sep) with 156. change (strlen box_bottom) with 156.
  change (strlen LF) with 1. change (strlen "") with 0.
  change (strlen "  Name:              ") with 21.
  change (strlen "  Group:             ") with 21.
  change (strlen "  Subgroup:          ") with 21.
  change (strlen "  Module loaded at:  ") with 21.
  change (strlen "  Module uptime:     ") with 21.
  change (strlen "  Read count:        ") with 21.
  change (strlen "  Current jiffies:   ") with 21.
  change (strlen " jiffies") with 8. change (strlen " seconds") with 8.
  lia.
Qed.

(** The report is never empty, and only a long name makes it long. *)
Lemma strlen_report_bounds (f : report_fields) :
  704 + strlen (f_name f) <= strlen (unlines (report_lines f))
  <= 821 + strlen (f_name f).
Proof.
  rewrite strlen_unlines_report.
  pose proof (strlen_dec_int (f_group f)).
  pose proof (strlen_dec_int (f_subgroup f)).
  pose proof (strlen_dec_int (f_read_count f)).
  pose proof (strlen_dec_ulong (f_loaded_at f)).
  pose proof (strlen_dec_ulong (f_uptime f)).
  pose proof (strlen_dec_ulong (f_jiffies f)).
  lia.
Qed.

Lemma report_lines_no_lf (f : report_fields) :
  mem_char (ascii_of_nat 10) (f_name f) = false ->
  Forall (fun l => mem_char (ascii_of_nat 10) l = false) (report_lines f).
Proof.
  intros Hn. unfold report_lines.
  repeat apply Forall_cons; try apply Forall_nil;
    rewrite ?mem_char_append, ?dec_int_no_lf, ?dec_ulong_no_lf, ?Hn;
    reflexivity.
Qed.

(* ================================================================= *)
(** ** Facts about the machine integers and the copy *)

(** Goals that say a number is in the range of its C type. *)
Ltac in_range :=
  unfold is_int, is_ulong, INT_MIN, INT_MAX, ULONG_MODULUS in *; lia.

Lemma to_int_small (z : Z) : is_int z -> to_int z = z.
Proof.
  unfold is_int, INT_MIN, INT_MAX, to_int. intros H.
  rewrite Z.mod_small; lia.
Qed.

Lemma to_int_is_int (z : Z) : is_int (to_int z).
Proof.
  unfold is_int, INT_MIN, INT_MAX, to_int.
  pose proof (Z.mod_pos_bound (z + 2 ^ 31) (2 ^ 32) ltac:(lia)). lia.
Qed.

Lemma to_ulong_small (z : Z) : is_ulong z -> to_ulong z = z.
Proof.
  unfold is_ulong, to_ulong, ULONG_MODULUS. intros H.
  apply Z.mod_small. lia.
Qed.

Lemma to_ulong_is_ulong (z : Z) : is_ulong (to_ulong z).
Proof.
  unfold is_ulong, to_ulong, ULONG_MODULUS.
  apply Z.mod_pos_bound. lia.
Qed.

(** When [copy_to_user] copies everything. *)
Lemma copy_to_user_ok (to : user_buf) (from : string) (size n : Z) :
  0 <= n -> 0 <= size ->
  (snd (copy_to_user to from size n) = 0 <->
   n <= size /\ n <= INT_MAX /\ n <= Z.max 0 (ub_writable to)).
Proof.
  intros Hn Hs. unfold copy_to_user, INT_MAX.
  destruct (Z.ltb_spec size n); [|destruct (Z.ltb_spec 2147483647 n)];
    cbn [orb snd]; lia.
Qed.

(** It never stores more than the source object holds. *)
Lemma copy_to_user_bounded (to : user_buf) (from : string) (size n : Z) :
  0 <= n -> 0 <= size ->
  0 <= n - snd (copy_to_user to from size n) <= size.
Proof.
  intros Hn Hs. unfold copy_to_user, INT_MAX.
  destruct (Z.ltb_spec size n); [|destruct (Z.ltb_spec 2147483647 n)];
    cbn [orb snd]; lia.
Qed.

(* ================================================================= *)
(** ** The two paths of [proc_read] *)

Section ReadPaths.

Variable HZ : Z.
Variables (g : globals) (clk : jiffies_reads) (ubuf : user_buf).
Variables (count ppos : Z).

(** Past position 0 the call does nothing. *)
Lemma proc_read_eof :
  0 < ppos -> proc_read HZ g clk ubuf count ppos = ReadResult 0 ppos g ubuf [].
Proof.
  intros H. unfold proc_read.
  destruct (Z.ltb_spec 0 ppos); [reflexivity | lia].
Qed.

Let g1 := set_read_count (to_int (read_count g + 1)) g.
Let text := report_text HZ g1 clk.
Let len := to_int (strlen text).
Let copied :=
  copy_to_user ubuf (take (MAX_SIZE - 1) text ++ NUL) MAX_SIZE
    (to_ulong len).

Lemma snprintf_report :
  snprintf MAX_SIZE report_fmt (report_args HZ g1 clk)
  = (take (MAX_SIZE - 1) text ++ NUL, len).
Proof.
  pose proof (vformat_report (fields_of HZ g1 clk)) as E.
  cbn [fields_of f_name f_group f_subgroup f_loaded_at f_uptime
       f_read_count f_jiffies] in E.
  unfold snprintf, report_args. rewrite E. reflexivity.
Qed.

(** At position 0 the call counts, renders and copies. *)
Lemma proc_read_fresh :
  ppos <= 0 ->
  proc_read HZ g clk ubuf count ppos =
  if negb (snd copied =? 0) then
    ReadResult (- EFAULT) ppos g1 (fst copied)
      [ LogLine KERN_ERR
          ("proc_module: Failed to copy data to user space" ++ LF) ]
  else
    ReadResult len len g1 (fst copied)
      [ printk KERN_INFO ("proc_module: /proc/%s read (count: %d)" ++ LF)
          [ ArgStr PROC_NAME; ArgInt (read_count g1) ] ].
Proof.
  intros H. unfold proc_read.
  destruct (Z.ltb_spec 0 ppos); [lia|].
  change (snprintf MAX_SIZE report_fmt _)
    with (snprintf MAX_SIZE report_fmt (report_args HZ g1 clk)).
  cbv zeta. fold g1. rewrite snprintf_report.
  unfold copied. destruct (copy_to_user _ _ _ _) as [u k].
  reflexivity.
Qed.

(** With a name that [param_set_charp] accepts, the length of the text
    is an [int] and an [unsigned long] as it is. *)
Lemma report_len :
  strlen (student_name g) <= 1024 ->
  len = strlen text /\ to_ulong len = strlen text /\
  704 + strlen (student_name g) <= strlen text
  <= 821 + strlen (student_name g).
Proof.
  intros Hn.
  pose proof (strlen_report_bounds (fields_of HZ g1 clk)) as B.
  change (f_name (fields_of HZ g1 clk)) with (student_name g) in B.
  change (unlines (report_lines (fields_of HZ g1 clk))) with text in B.
  pose proof (strlen_nonneg (student_name g)) as N.
  assert (E : len = strlen text).
  { unfold len. apply to_int_small. in_range. }
  split; [exact E|]. split; [|exact B].
  rewrite E. apply to_ulong_small. in_range.
Qed.

End ReadPaths.

Lemma copy_fails_iff (HZ : Z) (g : globals) (clk : jiffies_reads)
    (ubuf : user_buf) :
  let g1 := set_read_count (to_int (read_count g + 1)) g in
  let text := report_text HZ g1 clk in
  copy_fails HZ g clk ubuf <->
  snd (copy_to_user ubuf (take (MAX_SIZE - 1) text ++ NUL) MAX_SIZE
         (to_ulong (to_int (strlen text)))) <> 0.
Proof.
  intros g1 text. subst g1 text. unfold copy_fails. cbv zeta.
  rewrite (snprintf_report HZ g clk). reflexivity.
Qed.

(** Past position 0 a run of reads changes nothing. *)
Lemma session_eof (HZ : Z) (g : globals) (ppos : Z) (cs : list read_call) :
  0 < ppos ->
  session HZ g ppos cs
  = map (fun c => ReadResult 0 ppos g (c_ubuf c) []) cs.
Proof.
  intros H. induction cs as [|c cs IH]; [reflexivity|].
  cbn [session map]. rewrite proc_read_eof by exact H.
  cbn [rr_globals rr_ppos]. now rewrite IH.
Qed.

(* ================================================================= *)
(** ** End of stream *)

(** C2. A call of [proc_read] with [*ppos > 0] returns 0 (no bytes, no
    error) and has no effect: the position, every global (so
    [read_count] too) and the caller's memory are as before, and nothing
    is printed or formatted. *)
Theorem proc_read_past_start_is_eof
    (HZ : Z) (g : globals) (clk : jiffies_reads) (ubuf : user_buf)
    (count ppos : Z) :
  0 < ppos ->
  let r := proc_read HZ g clk ubuf count ppos in
  rr_ret r = 0 /\ rr_ppos r = ppos /\ rr_globals r = g /\
  rr_user r = ubuf /\ rr_log r = [].
Proof.
  intros H r. subst r. rewrite proc_read_eof by exact H.
  repeat split.
Qed.

Lemma proc_read_past_start_is_eof_witness :
  let r := proc_read Sample.HZ Sample.loaded Sample.clk Sample.page 4096 738
  in
  0 < 738 /\
  rr_ret r = 0 /\ rr_ppos r = 738 /\ rr_globals r = Sample.loaded /\
  rr_user r = Sample.page /\ rr_log r = [].
Proof.
  split; [reflexivity|].
  apply (proc_read_past_start_is_eof Sample.HZ Sample.loaded Sample.clk
           Sample.page 4096 738).
  reflexivity.
Defined.

(* ================================================================= *)
(** ** A fresh read *)

(** The two outcomes of a read at position 0. *)
Lemma proc_read_fresh_cases
    (HZ : Z) (g : globals) (clk : jiffies_reads) (ubuf : user_buf)
    (count ppos : Z) :
  ppos <= 0 ->
  let g1 := set_read_count (to_int (read_count g + 1)) g in
  let r := proc_read HZ g clk ubuf count ppos in
  rr_globals r = g1 /\
  ((copy_fails HZ g clk ubuf /\ rr_ret r = - EFAULT /\ rr_ppos r = ppos /\
    rr_log r = [copy_failed_line]) \/
   (~ copy_fails HZ g clk ubuf /\
    rr_ret r = to_int (strlen (report_text HZ g1 clk)) /\
    rr_ppos r = rr_ret r /\ rr_log r = [read_line (read_count g1)])).
Proof.
  intros H g1 r. subst r.
  pose proof (copy_fails_iff HZ g clk ubuf) as F. cbv zeta in F. fold g1 in F.
  rewrite proc_read_fresh by exact H. fold g1.
  destruct (Z.eqb_spec
    (snd (copy_to_user ubuf (take (MAX_SIZE - 1) (report_text HZ g1 clk)
                               ++ NUL) MAX_SIZE
            (to_ulong (to_int (strlen (report_text HZ g1 clk)))))) 0)
    as [E|E]; cbn [negb rr_globals rr_ret rr_ppos rr_log].
  - split; [reflexivity|]. right. repeat split. rewrite F. tauto.
  - split; [reflexivity|]. left. repeat split. now apply F.
Qed.

Lemma read_count_set (v : Z) (g : globals) :
  read_count (set_read_count v g) = v.
Proof. reflexivity. Qed.

Lemma incr_below_max (z : Z) :
  is_int z -> z < INT_MAX -> to_int (z + 1) = z + 1.
Proof.
  intros H L. apply to_int_small. in_range.
Qed.

(** A copy that succeeds was not longer than the buffer. *)
Lemma copy_ok_fits
    (HZ : Z) (g : globals) (clk : jiffies_reads) (ubuf : user_buf) :
  strlen (student_name g) <= 1024 ->
  ~ copy_fails HZ g clk ubuf ->
  let g1 := set_read_count (to_int (read_count g + 1)) g in
  strlen (report_text HZ g1 clk) <= MAX_SIZE /\
  strlen (report_text HZ g1 clk) <= Z.max 0 (ub_writable ubuf).
Proof.
  intros Hn Hc g1.
  destruct (report_len HZ g clk Hn) as (E1 & E2 & B). fold g1 in E1, E2, B.
  rewrite copy_fails_iff in Hc. cbv zeta in Hc. fold g1 in Hc.
  rewrite E2 in Hc.
  assert (K : snd (copy_to_user ubuf
                     (take (MAX_SIZE - 1) (report_text HZ g1 clk) ++ NUL)
                     MAX_SIZE (strlen (report_text HZ g1 clk))) = 0) by lia.
  apply copy_to_user_ok in K; unfold MAX_SIZE in *;
    pose proof (strlen_nonneg (report_text HZ g1 clk)); lia.
Qed.

(** What a copy that succeeds leaves in the caller's memory. *)
Lemma copy_to_user_ok_data (to : user_buf) (from : string) (size n : Z) :
  0 <= n -> 0 <= size ->
  snd (copy_to_user to from size n) = 0 ->
  ub_data (fst (copy_to_user to from size n))
  = take n from ++ drop n (ub_data to).
Proof.
  intros Hn Hs. unfold copy_to_user, INT_MAX. cbv zeta.
  destruct (Z.ltb_spec size n); [|destruct (Z.ltb_spec 2147483647 n)];
    cbn [orb snd fst ub_data]; intros K; try lia.
  replace (Z.min n (Z.max 0 (ub_writable to))) with n by lia.
  reflexivity.
Qed.

(** The caller's memory after a fresh read is what line 86 leaves. *)
Lemma proc_read_fresh_user
    (HZ : Z) (g : globals) (clk : jiffies_reads) (ubuf : user_buf)
    (count ppos : Z) :
  ppos <= 0 ->
  let text :=
    report_text HZ (set_read_count (to_int (read_count g + 1)) g) clk in
  rr_user (proc_read HZ g clk ubuf count ppos)
  = fst (copy_to_user ubuf (take (MAX_SIZE - 1) text ++ NUL) MAX_SIZE
           (to_ulong (to_int (strlen text)))).
Proof.
  intros Hp text. rewrite proc_read_fresh by exact Hp. fold text.
  now destruct (negb _).
Qed.

(** C1, as the code has it. In a run of reads that starts at position 0
    and whose first call succeeds, the first call adds 1 to [read_count]
    in [int] arithmetic (so exactly 1 whenever [read_count] is below
    [INT_MAX]) and returns the rendered report, which is not empty: it
    returns the length of the report and stores that many bytes of [buf]
    in the caller's memory, which are the whole report whenever the
    report is shorter than [MAX_SIZE]; it leaves [*ppos] at that length.
    Every later call of the run returns 0 and leaves the globals as the
    first call left them. *)
Theorem session_counts_once
    (HZ : Z) (g : globals) (c : read_call) (cs : list read_call) :
  globals_ok g ->
  let r := proc_read HZ g (c_clk c) (c_ubuf c) (c_count c) 0 in
  let text := report_text HZ (rr_globals r) (c_clk c) in
  rr_ret r <> - EFAULT ->
  read_count (rr_globals r) = to_int (read_count g + 1) /\
  (read_count g < INT_MAX -> read_count (rr_globals r) = read_count g + 1) /\
  0 < rr_ret r <= MAX_SIZE /\
  rr_ret r = strlen text /\
  rr_ppos r = rr_ret r /\
  ub_data (rr_user r)
  = take (rr_ret r) (take (MAX_SIZE - 1) text ++ NUL)
    ++ drop (rr_ret r) (ub_data (c_ubuf c)) /\
  (strlen text < MAX_SIZE ->
   take (rr_ret r) (ub_data (rr_user r)) = text /\
   ub_data (rr_user r) = text ++ drop (rr_ret r) (ub_data (c_ubuf c))) /\
  session HZ g 0 (c :: cs)
  = r :: map (fun c' => ReadResult 0 (rr_ppos r) (rr_globals r)
                          (c_ubuf c') []) cs.
Proof.
  intros Hok r text Hret.
  destruct (proc_read_fresh_cases HZ g (c_clk c) (c_ubuf c) (c_count c) 0
              ltac:(lia)) as [Hg [(_ & E & _)|(Hc & Eret & Epos & _)]];
    fold r in Hg |- *; [fold r in E; contradiction|].
  fold r in Eret, Epos.
  pose proof (ok_student_name g Hok) as Hn.
  destruct (report_len HZ g (c_clk c) Hn) as (E1 & E2 & B).
  destruct (copy_ok_fits HZ g (c_clk c) (c_ubuf c) Hn Hc) as [Hfit _].
  cbv zeta in Hfit.
  pose proof (strlen_nonneg (student_name g)) as N.
  pose proof (proc_read_fresh_user HZ g (c_clk c) (c_ubuf c) (c_count c) 0
                ltac:(lia)) as U.
  cbv zeta in U. fold r in U.
  rewrite copy_fails_iff in Hc. cbv zeta in Hc.
  assert (Hret' : rr_ret r = strlen text).
  { subst text. rewrite Hg. rewrite Eret. exact E1. }
  assert (Ht : text = report_text HZ
                 (set_read_count (to_int (read_count g + 1)) g) (c_clk c))
    by (subst text; now rewrite Hg).
  rewrite <- Ht in *.
  assert (Hdata : ub_data (rr_user r)
                  = take (rr_ret r) (take (MAX_SIZE - 1) text ++ NUL)
                    ++ drop (rr_ret r) (ub_data (c_ubuf c))).
  { rewrite U, E2, Hret'. rewrite E2 in Hc.
    pose proof (strlen_nonneg text).
    apply copy_to_user_ok_data; [lia | unfold MAX_SIZE; lia | lia]. }
  split; [rewrite Hg; apply read_count_set|].
  split.
  { intros L. rewrite Hg, read_count_set.
    apply incr_below_max; [apply (ok_read_count g Hok) | exact L]. }
  split; [rewrite Hret'; lia|].
  split; [exact Hret'|].
  split; [exact Epos|].
  split; [exact Hdata|].
  split.
  { intros Hshort.
    assert (D : ub_data (rr_user r)
                = text ++ drop (rr_ret r) (ub_data (c_ubuf c))).
    { rewrite Hdata, Hret'.
      rewrite (take_all (MAX_SIZE - 1) text) by lia.
      now rewrite take_append. }
    split; [|exact D].
    rewrite D, Hret'. apply take_append. }
  cbn [session]. fold r. f_equal.
  apply session_eof. rewrite Epos, Hret'. lia.
Qed.

Lemma sample_loaded_ok : globals_ok Sample.loaded.
Proof.
  constructor; unfold is_int, is_ulong, INT_MIN, INT_MAX, ULONG_MODULUS;
    vm_compute; intuition discriminate.
Defined.

Lemma session_counts_once_witness :
  let c := ReadCall Sample.clk Sample.page 4096 in
  let r := proc_read Sample.HZ Sample.loaded Sample.clk Sample.page 4096 0 in
  globals_ok Sample.loaded /\ rr_ret r <> - EFAULT /\
  read_count (rr_globals r) = 1 /\ rr_ret r = 738 /\ rr_ppos r = 738 /\
  ub_data (rr_user r) = report_text Sample.HZ (rr_globals r) Sample.clk /\
  session Sample.HZ Sample.loaded 0 [c; c; c]
  = [ r; ReadResult 0 738 (rr_globals r) Sample.page [];
      ReadResult 0 738 (rr_globals r) Sample.page [] ].
Proof.
  intros c r.
  assert (Hret : rr_ret r <> - EFAULT) by (vm_compute; discriminate).
  destruct (session_counts_once Sample.HZ Sample.loaded c [c; c]
              sample_loaded_ok Hret) as (_ & E & _ & _ & _ & _ & D & S).
  split; [exact sample_loaded_ok|]. split; [exact Hret|].
  split; [apply E; reflexivity|].
  split; [reflexivity|]. split; [reflexivity|].
  split; [|exact S].
  destruct D as [_ D]; [reflexivity|].
  etransitivity; [exact D | reflexivity].
Defined.

(** C1 as stated fails at the top of the [int] range: a successful first
    read with [read_count = INT_MAX] leaves [read_count] at [INT_MIN], not
    one higher. *)
Lemma read_count_wraps_at_int_max :
  let g := set_read_count INT_MAX Sample.loaded in
  let r := proc_read Sample.HZ g Sample.clk Sample.page 4096 0 in
  rr_ret r = 748 /\ rr_ppos r = 748 /\
  read_count g = 2147483647 /\
  read_count (rr_globals r) = -2147483648 /\
  read_count (rr_globals r) <> read_count g + 1.
Proof.
  vm_compute. repeat split; try reflexivity; discriminate.
Qed.

(* ================================================================= *)
(** ** A failing copy *)

(** C5. When the copy of a fresh read fails, [proc_read] returns
    [-EFAULT] and stops there, and the increment of [read_count] made
    before the copy stays: the counter holds the incremented value (one
    more than before, below [INT_MAX]). *)
Theorem copy_fault_keeps_increment
    (HZ : Z) (g : globals) (clk : jiffies_reads) (ubuf : user_buf)
    (count ppos : Z) :
  ppos <= 0 ->
  copy_fails HZ g clk ubuf ->
  let r := proc_read HZ g clk ubuf count ppos in
  rr_ret r = - EFAULT /\
  read_count (rr_globals r) = to_int (read_count g + 1) /\
  (is_int (read_count g) -> read_count g < INT_MAX ->
   read_count (rr_globals r) = read_count g + 1) /\
  rr_ppos r = ppos.
Proof.
  intros Hp Hc r.
  destruct (proc_read_fresh_cases HZ g clk ubuf count ppos Hp)
    as [Hg [(_ & E & P & _)|(Hn & _)]]; [|contradiction].
  fold r in Hg, E, P. rewrite Hg, read_count_set.
  repeat split; try assumption.
  intros Hi Hl. now apply incr_below_max.
Qed.

Lemma copy_fault_keeps_increment_witness :
  let r := proc_read Sample.HZ Sample.loaded Sample.clk Sample.bad_pointer
             4096 0 in
  0 <= 0 /\ copy_fails Sample.HZ Sample.loaded Sample.clk Sample.bad_pointer /\
  rr_ret r = - EFAULT /\ read_count (rr_globals r) = 1 /\ rr_ppos r = 0.
Proof.
  intros r.
  assert (Hp : 0 <= 0) by lia.
  assert (Hc : copy_fails Sample.HZ Sample.loaded Sample.clk
                 Sample.bad_pointer) by (vm_compute; discriminate).
  destruct (copy_fault_keeps_increment Sample.HZ Sample.loaded Sample.clk
              Sample.bad_pointer 4096 0 Hp Hc) as (A & B & _ & D).
  repeat split; assumption.
Defined.



(* ================================================================= *)
(** ** The length of what is delivered *)

(** A read that fits: the report is shorter than the buffer and the
    caller's memory takes it. The caller receives the whole text. *)
Lemma proc_read_delivers
    (HZ : Z) (g : globals) (clk : jiffies_reads) (ubuf : user_buf)
    (count ppos : Z) :
  ppos <= 0 ->
  strlen (student_name g) <= 1024 ->
  let g1 := set_read_count (to_int (read_count g + 1)) g in
  let text := report_text HZ g1 clk in
  strlen text < MAX_SIZE ->
  strlen text <= ub_writable ubuf ->
  proc_read HZ g clk ubuf count ppos =
  ReadResult (strlen text) (strlen text) g1
    (UserBuf (ub_writable ubuf) (text ++ drop (strlen text) (ub_data ubuf)))
    [read_line (read_count g1)].
Proof.
  intros Hp Hn g1 text Hfit Hw.
  destruct (report_len HZ g clk Hn) as (E1 & E2 & B).
  fold g1 in E1, E2, B. fold text in E1, E2, B.
  rewrite proc_read_fresh by exact Hp. fold g1. fold text.
  rewrite E2, E1.
  pose proof (strlen_nonneg text) as N.
  unfold copy_to_user, MAX_SIZE, INT_MAX in *.
  destruct (Z.ltb_spec 1024 (strlen text)); [lia|].
  destruct (Z.ltb_spec 2147483647 (strlen text)); [lia|].
  cbn [orb snd fst].
  replace (Z.min (strlen text) (Z.max 0 (ub_writable ubuf)))
    with (strlen text) by lia.
  rewrite Z.sub_diag. cbn [Z.eqb negb].
  rewrite (take_all (1024 - 1) text) by lia.
  rewrite take_append. reflexivity.
Qed.

(** A report longer than the buffer is not delivered at all: the length
    [snprintf] returned is above the size of [buf], [copy_to_user]
    refuses it and the read fails. *)
Lemma proc_read_long_report_faults
    (HZ : Z) (g : globals) (clk : jiffies_reads) (ubuf : user_buf)
    (count ppos : Z) :
  ppos <= 0 ->
  strlen (student_name g) <= 1024 ->
  let g1 := set_read_count (to_int (read_count g + 1)) g in
  MAX_SIZE < strlen (report_text HZ g1 clk) ->
  proc_read HZ g clk ubuf count ppos =
  ReadResult (- EFAULT) ppos g1 ubuf [copy_failed_line].
Proof.
  intros Hp Hn g1 Hlong.
  destruct (report_len HZ g clk Hn) as (E1 & E2 & B).
  fold g1 in E1, E2, B.
  rewrite proc_read_fresh by exact Hp. fold g1.
  rewrite E2.
  unfold copy_to_user, MAX_SIZE in *.
  destruct (Z.ltb_spec 1024 (strlen (report_text HZ g1 clk))); [|lia].
  cbn [orb snd fst].
  destruct (Z.eqb_spec (strlen (report_text HZ g1 clk)) 0); [lia|].
  reflexivity.
Qed.

(** What a read returns is never above the size of the buffer. *)
Lemma proc_read_ret_bounded
    (HZ : Z) (g : globals) (clk : jiffies_reads) (ubuf : user_buf)
    (count ppos : Z) :
  strlen (student_name g) <= 1024 ->
  rr_ret (proc_read HZ g clk ubuf count ppos) <= MAX_SIZE.
Proof.
  intros Hn. destruct (Z.ltb_spec 0 ppos) as [Hp|Hp].
  - rewrite proc_read_eof by exact Hp. cbn [rr_ret]. unfold MAX_SIZE. lia.
  - destruct (proc_read_fresh_cases HZ g clk ubuf count ppos Hp)
      as [_ [(_ & E & _)|(Hc & E & _)]]; rewrite E.
    + unfold EFAULT, MAX_SIZE. lia.
    + destruct (report_len HZ g clk Hn) as (E1 & _).
      rewrite E1. apply (copy_ok_fits HZ g clk ubuf Hn Hc).
Qed.

(** C3 fails on the code. With a name of 400 bytes the report has 1124
    bytes: [snprintf] fills [buf] up to its size but returns 1124, line 86
    asks [copy_to_user] for 1124 bytes of the 1024-byte [buf], and the
    read ends in [-EFAULT] with nothing delivered, although the caller's
    memory is writable; the counter has been incremented. *)
Theorem long_name_read_faults :
  let g := set_student_name Sample.long_name Sample.loaded in
  let g1 := set_read_count (to_int (read_count g + 1)) g in
  let r := proc_read Sample.HZ g Sample.clk Sample.page 4096 0 in
  strlen (student_name g) = 400 /\
  snd (snprintf MAX_SIZE report_fmt (report_args Sample.HZ g1 Sample.clk))
  = 1124 /\
  strlen (fst (snprintf MAX_SIZE report_fmt
                 (report_args Sample.HZ g1 Sample.clk))) = 1024 /\
  rr_ret r = - EFAULT /\ rr_ppos r = 0 /\ rr_user r = Sample.page /\
  read_count (rr_globals r) = 1.
Proof.
  vm_compute. repeat split.
Qed.

(** A report of exactly 1024 bytes is copied, but its last byte, the
    final line feed, is replaced by the NUL that ends [buf]. *)
Example report_of_buffer_size_loses_last_byte :
  let g := set_student_name Sample.name_300 Sample.loaded in
  let r := proc_read Sample.HZ g Sample.clk Sample.page 4096 0 in
  strlen (report_text Sample.HZ (rr_globals r) Sample.clk) = 1024 /\
  rr_ret r = 1024 /\
  ub_data (rr_user r)
  = take 1023 (report_text Sample.HZ (rr_globals r) Sample.clk) ++ NUL.
Proof.
  vm_compute. repeat split.
Qed.

(* ================================================================= *)
(** ** The requested capacity *)

(** C4 as stated fails: with [count = 10] and 738 bytes of report the
    read is no error; it returns 738 and all 738 bytes are stored in the
    caller's memory. *)
Lemma small_count_is_no_error :
  let r := proc_read Sample.HZ Sample.loaded Sample.clk Sample.page 10 0 in
  rr_ret r = 738 /\ 10 < rr_ret r /\ rr_ppos r = 738 /\
  strlen (ub_data (rr_user r)) = 738 /\
  ub_data (rr_user r)
  = report_text Sample.HZ (rr_globals r) Sample.clk /\
  read_count (rr_globals r) = 1.
Proof.
  vm_compute. repeat split.
Qed.

(** C4, as the code has it. [proc_read] never looks at [count]: a fresh
    read gives the same result for every [count]; its only error is
    [-EFAULT], returned exactly when the copy fails; otherwise it
    returns the whole length of the report, whatever [count] is. In both
    cases [read_count] has been incremented. *)
Theorem count_is_not_consulted
    (HZ : Z) (g : globals) (clk : jiffies_reads) (ubuf : user_buf)
    (count ppos : Z) :
  ppos <= 0 ->
  let r := proc_read HZ g clk ubuf count ppos in
  (forall count' : Z, proc_read HZ g clk ubuf count' ppos = r) /\
  read_count (rr_globals r) = to_int (read_count g + 1) /\
  (copy_fails HZ g clk ubuf -> rr_ret r = - EFAULT) /\
  (~ copy_fails HZ g clk ubuf ->
   rr_ret r = to_int (strlen (report_text HZ (rr_globals r) clk)) /\
   rr_ppos r = rr_ret r).
Proof.
  intros Hp r.
  destruct (proc_read_fresh_cases HZ g clk ubuf count ppos Hp)
    as [Hg R]. fold r in Hg, R.
  split; [intros count'; reflexivity|].
  split; [rewrite Hg; apply read_count_set|].
  rewrite Hg.
  destruct R as [(Hc & E & _)|(Hc & E & P & _)].
  - split; [intros _; exact E | intros Hn; contradiction].
  - split; [intros Hn; contradiction | intros _; split; assumption].
Qed.

Lemma count_is_not_consulted_witness :
  let r := proc_read Sample.HZ Sample.loaded Sample.clk Sample.page 10 0 in
  0 <= 0 /\
  proc_read Sample.HZ Sample.loaded Sample.clk Sample.page 4096 0 = r /\
  read_count (rr_globals r) = 1 /\ rr_ret r = 738.
Proof.
  intros r.
  assert (Hp : 0 <= 0) by lia.
  destruct (count_is_not_consulted Sample.HZ Sample.loaded Sample.clk
              Sample.page 10 0 Hp) as (A & B & _ & _).
  split; [exact Hp|]. split; [exact (A 4096)|].
  split; [exact B | reflexivity].
Defined.

(* ================================================================= *)
(** ** The numbers in the report can be read back *)

Lemma put_dec_acc (room : nat) : forall n acc,
  put_dec room n acc = put_dec room n "" ++ acc.
Proof.
  induction room as [|room IH]; intros n acc; cbn [put_dec].
  - reflexivity.
  - destruct (n / 10 =? 0); [reflexivity|].
    rewrite (IH (n / 10) (String (digit (n mod 10)) acc)).
    rewrite (IH (n / 10) (String (digit (n mod 10)) "")).
    now rewrite append_assoc.
Qed.

Lemma parse_dec_append (a b : string) : forall x,
  parse_dec (a ++ b) x = parse_dec b (parse_dec a x).
Proof.
  induction a as [|c a IH]; intros x; cbn [append parse_dec];
    [reflexivity | apply IH].
Qed.

Lemma digit_cases (n : Z) :
  n mod 10 = 0 \/ n mod 10 = 1 \/ n mod 10 = 2 \/ n mod 10 = 3 \/
  n mod 10 = 4 \/ n mod 10 = 5 \/ n mod 10 = 6 \/ n mod 10 = 7 \/
  n mod 10 = 8 \/ n mod 10 = 9.
Proof. pose proof (Z.mod_pos_bound n 10 ltac:(lia)). lia. Qed.

Lemma digit_value (n : Z) :
  Z.of_nat (nat_of_ascii (digit (n mod 10))) - 48 = n mod 10.
Proof.
  pose proof (digit_cases n) as E.
  repeat destruct E as [E|E]; rewrite E; reflexivity.
Qed.

Lemma digit_not_minus (n : Z) :
  Ascii.eqb (digit (n mod 10)) "-"%char = false.
Proof.
  pose proof (digit_cases n) as E.
  repeat destruct E as [E|E]; rewrite E; reflexivity.
Qed.

Lemma parse_put_dec (room : nat) : forall n,
  0 <= n < 10 ^ Z.of_nat room -> parse_dec (put_dec room n "") 0 = n.
Proof.
  induction room as [|room IH]; intros n H.
  - cbn in H |- *. lia.
  - cbn [put_dec].
    rewrite Nat2Z.inj_succ, Z.pow_succ_r in H by lia.
    destruct (Z.eqb_spec (n / 10) 0) as [E|E].
    + cbn [parse_dec]. rewrite digit_value.
      pose proof (Z.div_mod n 10 ltac:(lia)). lia.
    + rewrite put_dec_acc, parse_dec_append. cbn [parse_dec].
      rewrite IH, digit_value.
      * pose proof (Z.div_mod n 10 ltac:(lia)). lia.
      * split; [apply Z.div_pos; lia|].
        apply Z.div_lt_upper_bound; lia.
Qed.

Lemma put_dec_head (room : nat) : forall n acc,
  exists m rest, put_dec (S room) n acc = String (digit (m mod 10)) rest.
Proof.
  induction room as [|room IH]; intros n acc.
  - exists n, acc. cbn [put_dec]. now destruct (n / 10 =? 0).
  - change (put_dec (S (S room)) n acc)
      with (if n / 10 =? 0 then String (digit (n mod 10)) acc
            else put_dec (S room) (n / 10) (String (digit (n mod 10)) acc)).
    destruct (n / 10 =? 0); [now exists n, acc | apply IH].
Qed.

(** [%lu] shows the value: it can be read back. *)
Lemma parse_dec_ulong (n : Z) :
  is_ulong n -> parse_dec (dec_ulong n) 0 = n.
Proof.
  unfold is_ulong, ULONG_MODULUS. intros H.
  apply parse_put_dec. change (10 ^ Z.of_nat 20) with 100000000000000000000.
  lia.
Qed.

(** [%d] shows the value: it can be read back. *)
Lemma parse_dec_int (n : Z) : is_int n -> parse_int (dec_int n) = n.
Proof.
  unfold is_int, INT_MIN, INT_MAX, dec_int. intros H.
  destruct (Z.ltb_spec n 0) as [L|L].
  - cbn [append parse_int]. change (Ascii.eqb "-" "-") with true. cbn iota.
    rewrite parse_put_dec; [lia|].
    change (10 ^ Z.of_nat 20) with 100000000000000000000. lia.
  - destruct (put_dec_head 19 n "") as (m & rest & E).
    unfold parse_int. rewrite E, digit_not_minus, <- E.
    apply parse_put_dec.
    change (10 ^ Z.of_nat 20) with 100000000000000000000. lia.
Qed.

(** So two values show as the same text only when they are equal. *)
Lemma dec_int_inj (a b : Z) :
  is_int a -> is_int b -> dec_int a = dec_int b -> a = b.
Proof.
  intros Ha Hb E. rewrite <- (parse_dec_int a Ha), <- (parse_dec_int b Hb).
  now rewrite E.
Qed.

Lemma dec_ulong_inj (a b : Z) :
  is_ulong a -> is_ulong b -> dec_ulong a = dec_ulong b -> a = b.
Proof.
  intros Ha Hb E.
  rewrite <- (parse_dec_ulong a Ha), <- (parse_dec_ulong b Hb).
  now rewrite E.
Qed.

(* ================================================================= *)
(** ** The content of the report *)

(** What the caller of a successful, untruncated fresh read receives. *)
Lemma proc_read_delivers_report
    (HZ : Z) (g : globals) (clk : jiffies_reads) (ubuf : user_buf)
    (count ppos : Z) :
  ppos <= 0 ->
  strlen (student_name g) <= 1024 ->
  let g1 := set_read_count (to_int (read_count g + 1)) g in
  ~ copy_fails HZ g clk ubuf ->
  strlen (report_text HZ g1 clk) < MAX_SIZE ->
  let r := proc_read HZ g clk ubuf count ppos in
  rr_globals r = g1 /\
  rr_ret r = strlen (report_text HZ g1 clk) /\
  take (rr_ret r) (ub_data (rr_user r)) = report_text HZ g1 clk.
Proof.
  intros Hp Hn g1 Hc Hfit r.
  destruct (copy_ok_fits HZ g clk ubuf Hn Hc) as [_ Hw]. fold g1 in Hw.
  assert (Hw' : strlen (report_text HZ g1 clk) <= ub_writable ubuf).
  { destruct (report_len HZ g clk Hn) as (_ & _ & B). fold g1 in B.
    pose proof (strlen_nonneg (student_name g)). lia. }
  subst r. rewrite (proc_read_delivers HZ g clk ubuf count ppos Hp Hn Hfit Hw').
  fold g1. cbn [rr_globals rr_ret rr_user ub_data].
  repeat split. apply take_append.
Qed.

(** The lines of a text that goes on after a line feed. *)
Lemma lines_from_append (a : string) : forall cur b,
  lines_from cur (a ++ LF ++ b)
  = (lines_from cur a ++ lines_from "" b)%list.
Proof.
  induction a as [|d a IH]; intros cur b.
  - cbn [append LF lines_from]. now rewrite Ascii.eqb_refl.
  - change ((String d a) ++ LF ++ b) with (String d (a ++ LF ++ b)).
    cbn [lines_from]. destruct (Ascii.eqb d (ascii_of_nat 10)).
    + now rewrite IH.
    + apply IH.
Qed.

Lemma lines_from_prefix (p : string) : forall cur a,
  mem_char (ascii_of_nat 10) p = false ->
  lines_from cur (p ++ a) = lines_from (cur ++ p) a.
Proof.
  induction p as [|d p IH]; intros cur a H.
  - cbn [append]. now rewrite append_nil_r.
  - cbn [mem_char] in H. apply orb_false_elim in H as [Hd Hp].
    change ((String d p) ++ a) with (String d (p ++ a)).
    cbn [lines_from]. rewrite Ascii.eqb_sym, Hd, IH by exact Hp.
    now rewrite append_assoc.
Qed.

Lemma lines_no_lf (a : string) :
  mem_char (ascii_of_nat 10) a = false -> lines a = [a].
Proof.
  intros H. unfold lines.
  rewrite <- (append_nil_r a) at 1. now rewrite lines_from_prefix.
Qed.

Lemma lines_unlines_cons (l : string) (ls : list string) :
  lines (unlines (l :: ls)) = (lines l ++ lines (unlines ls))%list.
Proof. unfold lines. cbn [unlines]. apply lines_from_append. Qed.

(** C6, as the code has it. A fresh read renders the report from the
    format: the three lines of the box, then the fields in the order
    name, group, subgroup, load time in jiffies, uptime in seconds, read
    count, current jiffies, each after its label and ended by a line
    feed, then the closing line of the box. Name, group and subgroup are
    those the globals hold at the call (so after a parameter write, the
    values written), the load time is [load_time], the uptime is computed
    from the first reading of [jiffies], the count is the incremented one
    and the last field is the second reading of [jiffies]. Each of the
    six numbers is on a line of its own; the name field takes the lines
    of the name, so one line exactly when the name has no line feed. When
    the read succeeds and the text fits the buffer it is what the caller
    receives. *)
Theorem report_shows_current_fields
    (HZ : Z) (g : globals) (clk : jiffies_reads) (ubuf : user_buf)
    (count : Z) :
  let g1 := set_read_count (to_int (read_count g + 1)) g in
  let r := proc_read HZ g clk ubuf count 0 in
  let delivered := take (rr_ret r) (ub_data (rr_user r)) in
  let number_lines :=
    [ "  Group:             " ++ dec_int (group g);
      "  Subgroup:          " ++ dec_int (subgroup g);
      "  Module loaded at:  " ++ dec_ulong (load_time g) ++ " jiffies";
      "  Module uptime:     "
        ++ dec_ulong (to_ulong (j_uptime clk - load_time g) / HZ)
        ++ " seconds";
      "  Read count:        " ++ dec_int (to_int (read_count g + 1));
      "  Current jiffies:   " ++ dec_ulong (j_report clk) ] in
  let field_lines :=
    ([ box_top; box_title; box_sep;
       ("  Name:              " ++ student_name g)%string ]
     ++ number_lines ++ [ box_bottom ])%list in
  vformat report_fmt (report_args HZ g1 clk) = Some (unlines field_lines) /\
  lines (unlines field_lines)
  = ([ box_top; box_title; box_sep ]
     ++ lines_from "  Name:              " (student_name g)
     ++ number_lines ++ [ box_bottom; "" ])%list /\
  (mem_char (ascii_of_nat 10) (student_name g) = false ->
   lines (unlines field_lines) = (field_lines ++ [""])%list) /\
  (strlen (student_name g) <= 1024 ->
   ~ copy_fails HZ g clk ubuf ->
   strlen (unlines field_lines) < MAX_SIZE ->
   rr_ret r = strlen (unlines field_lines) /\
   delivered = unlines field_lines).
Proof.
  intros g1 r delivered number_lines field_lines.
  split; [exact (vformat_report (fields_of HZ g1 clk))|].
  split; [|split].
  - subst field_lines. cbn [app].
    rewrite !lines_unlines_cons.
    rewrite (lines_no_lf box_top), (lines_no_lf box_title),
      (lines_no_lf box_sep) by reflexivity.
    cbn [app]. do 3 f_equal.
    unfold lines at 1. rewrite lines_from_prefix by reflexivity.
    cbn [append]. f_equal.
    change (lines (unlines (number_lines ++ [box_bottom])%list)
            = (number_lines ++ [box_bottom; ""])%list).
    change (number_lines ++ [box_bottom; ""])%list
      with ((number_lines ++ [box_bottom]) ++ [""])%list.
    apply lines_unlines. subst number_lines.
    repeat apply Forall_cons; try apply Forall_nil;
      rewrite ?mem_char_append, ?dec_int_no_lf, ?dec_ulong_no_lf;
      reflexivity.
  - intros Hlf. apply lines_unlines.
    apply (report_lines_no_lf (fields_of HZ g1 clk)). exact Hlf.
  - intros Hn Hc Hfit.
    destruct (proc_read_delivers_report HZ g clk ubuf count 0 ltac:(lia)
                Hn Hc Hfit) as (_ & R & D).
    split; [exact R | exact D].
Qed.

Lemma sample_read_succeeds :
  ~ copy_fails Sample.HZ Sample.loaded Sample.clk Sample.page.
Proof. intros H. apply H. reflexivity. Defined.

(** C6 as stated fails for a name with a line feed, which a write to the
    parameter as the source documents it produces: the name field then
    takes two lines, the second of them empty, and the group is on the
    sixth line of the report, not the fifth. *)
Lemma name_with_line_feed_takes_two_lines :
  let g := set_student_name Sample.name_with_lf Sample.loaded in
  let r := proc_read Sample.HZ g Sample.clk Sample.page 4096 0 in
  let shown := lines (take (rr_ret r) (ub_data (rr_user r))) in
  strlen (student_name g) = 9 /\
  rr_ret r = 733 /\
  length shown = 13%nat /\
  nth_error shown 3 = Some "  Name:              New Name" /\
  nth_error shown 4 = Some "" /\
  nth_error shown 5 = Some "  Group:             9".
Proof.
  vm_compute. repeat split.
Qed.

Lemma report_shows_current_fields_witness :
  let g := set_student_name Sample.name_with_lf Sample.loaded in
  let r := proc_read Sample.HZ g Sample.clk Sample.page 4096 0 in
  rr_ret r = 733 /\
  lines (take (rr_ret r) (ub_data (rr_user r)))
  = [ box_top; box_title; box_sep;
      "  Name:              New Name"; "";
      "  Group:             9";
      "  Subgroup:          2";
      "  Module loaded at:  4295123456 jiffies";
      "  Module uptime:     120 seconds";
      "  Read count:        1";
      "  Current jiffies:   4295243456";
      box_bottom; "" ].
Proof.
  intros g r.
  destruct (report_shows_current_fields Sample.HZ g Sample.clk
              Sample.page 4096) as (_ & L & _ & D).
  destruct D as [R D];
    [vm_compute; discriminate | intros H; apply H; reflexivity
    | reflexivity |].
  fold r in R, D. split; [rewrite R; reflexivity|].
  rewrite D. etransitivity; [exact L | reflexivity].
Defined.

(** A parameter write shows in the next report: after [group] is set to
    another value the group line is rendered from the new value and
    differs from the line before. The same holds for [subgroup]. *)
Lemma reconfigured_group_shows
    (HZ : Z) (g : globals) (clk clk' : jiffies_reads) (v : Z) :
  is_int v -> is_int (group g) -> v <> group g ->
  nth_error (report_lines (fields_of HZ (set_group v g) clk')) 4
  = Some ("  Group:             " ++ dec_int v) /\
  nth_error (report_lines (fields_of HZ (set_group v g) clk')) 4
  <> nth_error (report_lines (fields_of HZ g clk)) 4.
Proof.
  intros Hv Hg Hne. split; [reflexivity|].
  cbn [report_lines nth_error fields_of f_group group set_group].
  intros E. inversion E as [E']. apply Hne. now apply dec_int_inj.
Qed.

Lemma reconfigured_subgroup_shows
    (HZ : Z) (g : globals) (clk clk' : jiffies_reads) (v : Z) :
  is_int v -> is_int (subgroup g) -> v <> subgroup g ->
  nth_error (report_lines (fields_of HZ (set_subgroup v g) clk')) 5
  = Some ("  Subgroup:          " ++ dec_int v) /\
  nth_error (report_lines (fields_of HZ (set_subgroup v g) clk')) 5
  <> nth_error (report_lines (fields_of HZ g clk)) 5.
Proof.
  intros Hv Hg Hne. split; [reflexivity|].
  cbn [report_lines nth_error fields_of f_subgroup subgroup set_subgroup].
  intros E. inversion E as [E']. apply Hne. now apply dec_int_inj.
Qed.

(* ================================================================= *)
(** ** The uptime *)

(** The uptime a read at [d] ticks after the load computes: the quotient
    of [d] by [HZ], whatever the counter's value at the load was (the
    difference of line 66 wraps as the counter does). *)
Lemma uptime_seconds_ticks (HZ load d : Z) :
  0 < HZ -> is_ulong load -> is_ulong d ->
  uptime_seconds HZ (to_ulong (load + d)) load = d ÷ HZ.
Proof.
  unfold is_ulong, uptime_seconds, to_ulong, ULONG_MODULUS.
  intros Hz Hl Hd.
  rewrite Zminus_mod_idemp_l.
  replace (load + d - load) with d by lia.
  rewrite Z.mod_small by lia.
  symmetry. apply Z.quot_div_nonneg; lia.
Qed.

(** C7. The uptime field of a fresh read is the difference between the
    reading of [jiffies] and [load_time], as an [unsigned long], divided
    by [HZ] with the quotient truncated toward zero: for a read [d] ticks
    after the load it is [d ÷ HZ]. It is never negative, and a read at a
    later tick count never shows less. When the read succeeds and the
    report fits, this is the number on the eighth line the caller
    receives. *)
Theorem uptime_field_is_truncated_quotient
    (HZ : Z) (g : globals) (clk : jiffies_reads) (ubuf : user_buf)
    (count d : Z) :
  0 < HZ ->
  is_ulong (load_time g) ->
  is_ulong d ->
  j_uptime clk = to_ulong (load_time g + d) ->
  let r := proc_read HZ g clk ubuf count 0 in
  let shown := f_uptime (fields_of HZ (rr_globals r) clk) in
  shown = to_ulong (j_uptime clk - load_time g) ÷ HZ /\
  shown = d ÷ HZ /\
  0 <= shown /\
  (forall (g' : globals) (clk' : jiffies_reads) (ubuf' : user_buf)
          (count' d' : Z),
      load_time g' = load_time g ->
      d <= d' -> is_ulong d' ->
      j_uptime clk' = to_ulong (load_time g + d') ->
      shown <= f_uptime (fields_of HZ
                  (rr_globals (proc_read HZ g' clk' ubuf' count' 0)) clk')) /\
  (strlen (student_name g) <= 1024 ->
   mem_char (ascii_of_nat 10) (student_name g) = false ->
   ~ copy_fails HZ g clk ubuf ->
   strlen (report_text HZ (rr_globals r) clk) < MAX_SIZE ->
   nth_error (lines (take (rr_ret r) (ub_data (rr_user r)))) 7
   = Some ("  Module uptime:     " ++ dec_ulong shown ++ " seconds")).
Proof.
  intros Hz Hl Hd Hj r shown.
  destruct (proc_read_fresh_cases HZ g clk ubuf count 0 ltac:(lia))
    as [Hg _]. fold r in Hg.
  assert (Es : shown = uptime_seconds HZ (j_uptime clk) (load_time g)).
  { subst shown. rewrite Hg. reflexivity. }
  assert (Ed : shown = d ÷ HZ).
  { rewrite Es, Hj. now apply uptime_seconds_ticks. }
  split.
  { rewrite Es. unfold uptime_seconds. symmetry.
    apply Z.quot_div_nonneg; [|exact Hz].
    apply (to_ulong_is_ulong (j_uptime clk - load_time g)). }
  split; [exact Ed|].
  split.
  { rewrite Ed. apply Z.quot_pos; [apply Hd | lia]. }
  split.
  { intros g' clk' ubuf' count' d' Hl' Hle Hd' Hj'.
    destruct (proc_read_fresh_cases HZ g' clk' ubuf' count' 0 ltac:(lia))
      as [Hg' _].
    rewrite Hg'. cbn [fields_of f_uptime set_read_count load_time].
    rewrite Hl', Hj', uptime_seconds_ticks, Ed by assumption.
    rewrite !Z.quot_div_nonneg by (try apply Hd; try apply Hd'; lia).
    apply Z.div_le_mono; lia. }
  intros Hn Hlf Hc Hfit. rewrite Hg in Hfit.
  destruct (proc_read_delivers_report HZ g clk ubuf count 0 ltac:(lia)
              Hn Hc Hfit) as (_ & _ & D).
  fold r in D. rewrite D. unfold report_text.
  rewrite lines_unlines by (apply report_lines_no_lf; exact Hlf).
  rewrite Es. reflexivity.
Qed.

Lemma uptime_field_is_truncated_quotient_witness :
  let r := proc_read Sample.HZ Sample.loaded Sample.clk Sample.page 4096 0 in
  0 < Sample.HZ /\ is_ulong (load_time Sample.loaded) /\ is_ulong 120000 /\
  j_uptime Sample.clk = to_ulong (load_time Sample.loaded + 120000) /\
  f_uptime (fields_of Sample.HZ (rr_globals r) Sample.clk) = 120 /\
  nth_error (lines (take (rr_ret r) (ub_data (rr_user r)))) 7
  = Some "  Module uptime:     120 seconds".
Proof.
  intros r.
  assert (Hz : 0 < Sample.HZ) by reflexivity.
  assert (Hl : is_ulong (load_time Sample.loaded))
    by (vm_compute; intuition discriminate).
  assert (Hd : is_ulong 120000) by (vm_compute; intuition discriminate).
  assert (Hj : j_uptime Sample.clk
               = to_ulong (load_time Sample.loaded + 120000)) by reflexivity.
  destruct (uptime_field_is_truncated_quotient Sample.HZ Sample.loaded
              Sample.clk Sample.page 4096 120000 Hz Hl Hd Hj)
    as (_ & E & _ & _ & L).
  split; [exact Hz|]. split; [exact Hl|]. split; [exact Hd|].
  split; [exact Hj|]. split; [exact E|].
  apply L; [vm_compute; discriminate | reflexivity
           | exact sample_read_succeeds | reflexivity].
Defined.

(* ================================================================= *)
(** ** What a read leaves alone *)

Lemma proc_read_globals
    (HZ : Z) (g : globals) (clk : jiffies_reads) (ubuf : user_buf)
    (count ppos : Z) :
  rr_globals (proc_read HZ g clk ubuf count ppos)
  = if 0 <? ppos then g
    else set_read_count (to_int (read_count g + 1)) g.
Proof.
  destruct (Z.ltb_spec 0 ppos) as [H|H].
  - now rewrite proc_read_eof.
  - now destruct (proc_read_fresh_cases HZ g clk ubuf count ppos H).
Qed.

Lemma host_step_inv (HZ : Z) (h : host) (e : host_event) :
  host_inv h -> host_inv (host_step HZ h e).
Proof.
  intros I. unfold host_step.
  destruct e as [name grp sub j created|c ppos|s|v|v|];
    destruct (h_module h) as [g|] eqn:M; try exact I.
  - destruct created; cbn; [|exact I].
    intros g' E. inversion E; subst. now split.
  - destruct (I g M) as [P A].
    rewrite P. intros g' E. cbn in E. inversion E; subst.
    rewrite proc_read_globals. cbn [h_activated].
    destruct (0 <? ppos); cbn; now split.
  - destruct (I g M) as [P A]. intros g' E. cbn in E.
    inversion E; subst. now split.
  - destruct (I g M) as [P A]. intros g' E. cbn in E.
    inversion E; subst. now split.
  - destruct (I g M) as [P A]. intros g' E. cbn in E.
    inversion E; subst. now split.
  - intros g' E. discriminate E.
Qed.

Lemma host_run_inv (HZ : Z) (es : list host_event) : forall h,
  host_inv h -> host_inv (host_run HZ h es).
Proof.
  unfold host_run.
  induction es as [|e es IH]; intros h I; cbn [fold_left]; [exact I|].
  apply IH. now apply host_step_inv.
Qed.

(** C8. A call of [proc_read] assigns no global other than [read_count]:
    the name, the group, the subgroup, [load_time] and [proc_file] are as
    before, and the position is either unchanged or the value returned.
    [load_time] is assigned by [proc_module_init] alone, before the entry
    is created: in every run of the host, whenever the module is loaded
    (so whenever a read can reach [proc_read]) [load_time] is the clock
    value of that load. *)
Theorem proc_read_frame
    (HZ : Z) (g : globals) (clk : jiffies_reads) (ubuf : user_buf)
    (count ppos : Z) :
  let r := proc_read HZ g clk ubuf count ppos in
  (rr_globals r = set_read_count (read_count (rr_globals r)) g /\
   student_name (rr_globals r) = student_name g /\
   group (rr_globals r) = group g /\
   subgroup (rr_globals r) = subgroup g /\
   load_time (rr_globals r) = load_time g /\
   proc_file (rr_globals r) = proc_file g /\
   (rr_ppos r = ppos \/ rr_ppos r = rr_ret r)) /\
  (forall (jiffies : Z) (created : bool),
      load_time (snd (fst (proc_module_init g jiffies created))) = jiffies) /\
  (forall (es : list host_event) (g' : globals),
      h_module (host_run HZ host_unloaded es) = Some g' ->
      proc_file g' = true /\
      h_activated (host_run HZ host_unloaded es) = Some (load_time g')).
Proof.
  intros r. split; [|split].
  - subst r. rewrite proc_read_globals.
    destruct (Z.ltb_spec 0 ppos) as [H|H].
    + rewrite proc_read_eof by exact H. cbn [rr_ppos rr_ret].
      destruct g; repeat split. now left.
    + destruct g; repeat split.
      destruct (proc_read_fresh_cases HZ
                  (Globals proc_file0 read_count0 load_time0 student_name0
                     group0 subgroup0) clk ubuf count ppos H)
        as [_ [(_ & _ & P & _)|(_ & _ & P & _)]]; [now left | now right].
  - intros jiffies created. unfold proc_module_init.
    destruct created; reflexivity.
  - intros es g'. apply (host_run_inv HZ es host_unloaded).
    intros g0 E. discriminate E.
Qed.

(* ================================================================= *)
(** ** Arithmetic of the counter *)

Lemma to_int_add_l (a b : Z) : to_int (to_int a + b) = to_int (a + b).
Proof.
  unfold to_int.
  replace ((a + 2 ^ 31) mod 2 ^ 32 - 2 ^ 31 + b + 2 ^ 31)
    with ((a + 2 ^ 31) mod 2 ^ 32 + b) by lia.
  rewrite Zplus_mod_idemp_l. f_equal. f_equal. lia.
Qed.

(* ================================================================= *)
(** ** The scenario of the specification *)

(** Load at some clock value; a first read 120 seconds later shows count
    1 and uptime 120; the next read of that session returns 0 and the
    count stays 1; the group is set to 7; the first read of another
    session shows group 7 and count 2. *)
Example scenario :
  let c := ReadCall Sample.clk Sample.page 4096 in
  let r1 := proc_read Sample.HZ Sample.loaded Sample.clk Sample.page 4096 0 in
  let r2 := proc_read Sample.HZ (rr_globals r1) Sample.clk Sample.page 4096
              (rr_ppos r1) in
  let g3 := set_group 7 (rr_globals r2) in
  let r3 := proc_read Sample.HZ g3 Sample.clk Sample.page 4096 0 in
  let shown r := lines (take (rr_ret r) (ub_data (rr_user r))) in
  nth_error (shown r1) 7 = Some "  Module uptime:     120 seconds" /\
  nth_error (shown r1) 8 = Some "  Read count:        1" /\
  rr_ret r2 = 0 /\ read_count (rr_globals r2) = 1 /\
  nth_error (shown r3) 4 = Some "  Group:             7" /\
  nth_error (shown r3) 8 = Some "  Read count:        2" /\
  load_time (rr_globals r3) = load_time Sample.loaded.
Proof.
  vm_compute. repeat split.
Qed.

(* ================================================================= *)
(** ** More on the outcome of a read *)

Lemma take_append_le (n : Z) (a b : string) :
  n <= strlen a -> take n (a ++ b) = take n a.
Proof.
  unfold take, strlen. intros H.
  assert (L : (Z.to_nat n <= String.length a)%nat) by lia.
  clear H. revert L. generalize (Z.to_nat n) as k.
  induction a as [|c a IH]; intros [|k] L; cbn in L |- *;
    try reflexivity; try lia.
  - now destruct b.
  - rewrite IH by lia. reflexivity.
Qed.

(** When the copy of a fresh read fails, in terms of the report and the
    caller's memory. *)
Lemma copy_fails_cases
    (HZ : Z) (g : globals) (clk : jiffies_reads) (ubuf : user_buf) :
  strlen (student_name g) <= 1024 ->
  let text :=
    report_text HZ (set_read_count (to_int (read_count g + 1)) g) clk in
  copy_fails HZ g clk ubuf <->
  MAX_SIZE < strlen text \/ Z.max 0 (ub_writable ubuf) < strlen text.
Proof.
  intros Hn text.
  destruct (report_len HZ g clk Hn) as (_ & E2 & B). fold text in E2, B.
  pose proof (strlen_nonneg (student_name g)) as N.
  rewrite copy_fails_iff. cbv zeta. fold text. rewrite E2.
  pose proof (copy_to_user_ok ubuf (take (MAX_SIZE - 1) text ++ NUL)
                MAX_SIZE (strlen text) ltac:(lia)
                ltac:(unfold MAX_SIZE; lia)) as K.
  unfold MAX_SIZE, INT_MAX in *. split.
  - intros F. destruct (Z_lt_dec 1024 (strlen text)); [now left|].
    destruct (Z_lt_dec (Z.max 0 (ub_writable ubuf)) (strlen text));
      [now right|].
    exfalso. apply F. apply K. lia.
  - intros H F. apply K in F. lia.
Qed.

(** X1. A fresh read fails, with [-EFAULT], exactly when the report is
    longer than [buf] or longer than the memory the caller's pointer lets
    the kernel write; otherwise it returns the length of the report and
    leaves [*ppos] at it. *)
Theorem fresh_read_fails_iff
    (HZ : Z) (g : globals) (clk : jiffies_reads) (ubuf : user_buf)
    (count ppos : Z) :
  ppos <= 0 ->
  strlen (student_name g) <= 1024 ->
  let text :=
    report_text HZ (set_read_count (to_int (read_count g + 1)) g) clk in
  let r := proc_read HZ g clk ubuf count ppos in
  (rr_ret r = - EFAULT <->
   MAX_SIZE < strlen text \/ Z.max 0 (ub_writable ubuf) < strlen text) /\
  (rr_ret r <> - EFAULT ->
   rr_ret r = strlen text /\ rr_ppos r = strlen text).
Proof.
  intros Hp Hn text r.
  destruct (report_len HZ g clk Hn) as (E1 & _ & B). fold text in E1, B.
  pose proof (strlen_nonneg (student_name g)) as N.
  pose proof (copy_fails_cases HZ g clk ubuf Hn) as C. cbv zeta in C.
  fold text in C.
  destruct (proc_read_fresh_cases HZ g clk ubuf count ppos Hp)
    as [_ [(F & E & _)|(F & E & P & _)]]; fold r in E; fold text in E.
  - split; [rewrite <- C; tauto | congruence].
  - fold r in P. rewrite E1 in E. split.
    + rewrite <- C. split; [|tauto].
      intros H. rewrite H in E. unfold EFAULT in E. lia.
    + intros _. split; [exact E | now rewrite P].
Qed.

Lemma fresh_read_fails_iff_witness :
  let r := proc_read Sample.HZ Sample.loaded Sample.clk Sample.bad_pointer
             4096 0 in
  0 <= 0 /\ strlen (student_name Sample.loaded) <= 1024 /\
  rr_ret r = - EFAULT.
Proof.
  intros r.
  assert (Hp : 0 <= 0) by lia.
  pose proof (ok_student_name _ sample_loaded_ok) as Hn.
  destruct (fresh_read_fails_iff Sample.HZ Sample.loaded Sample.clk
              Sample.bad_pointer 4096 0 Hp Hn) as [[_ F] _].
  split; [exact Hp|]. split; [exact Hn|].
  apply F. right. reflexivity.
Defined.

(** X2. Whatever the position, a call returns [-EFAULT], 0, or a length
    between 704 and [MAX_SIZE]; it returns 0 exactly when [*ppos > 0],
    and [*ppos] moves only when a length is returned, to that length. *)
Theorem proc_read_return_values
    (HZ : Z) (g : globals) (clk : jiffies_reads) (ubuf : user_buf)
    (count ppos : Z) :
  strlen (student_name g) <= 1024 ->
  let r := proc_read HZ g clk ubuf count ppos in
  (rr_ret r = - EFAULT \/ rr_ret r = 0 \/ 704 <= rr_ret r <= MAX_SIZE) /\
  (rr_ret r = 0 <-> 0 < ppos) /\
  (rr_ret r <= 0 -> rr_ppos r = ppos) /\
  (0 < rr_ret r -> rr_ppos r = rr_ret r).
Proof.
  intros Hn r. pose proof (strlen_nonneg (student_name g)) as N.
  destruct (Z.ltb_spec 0 ppos) as [Hp|Hp].
  - subst r. rewrite proc_read_eof by exact Hp. cbn [rr_ret rr_ppos].
    repeat split; try tauto; try lia.
  - destruct (report_len HZ g clk Hn) as (E1 & _ & B).
    destruct (proc_read_fresh_cases HZ g clk ubuf count ppos Hp)
      as [_ [(_ & E & P & _)|(F & E & P & _)]]; fold r in E, P.
    + rewrite E, P. unfold EFAULT. repeat split; try tauto; try lia.
    + destruct (copy_ok_fits HZ g clk ubuf Hn F) as [Hfit _].
      cbv zeta in Hfit. rewrite E1 in E. rewrite P, E.
      repeat split; lia.
Qed.

Lemma proc_read_return_values_witness :
  let r := proc_read Sample.HZ Sample.loaded Sample.clk Sample.page 4096 0 in
  strlen (student_name Sample.loaded) <= 1024 /\
  704 <= rr_ret r <= MAX_SIZE /\ rr_ppos r = rr_ret r.
Proof.
  intros r.
  pose proof (ok_student_name _ sample_loaded_ok) as Hn.
  destruct (proc_read_return_values Sample.HZ Sample.loaded Sample.clk
              Sample.page 4096 0 Hn) as (_ & _ & _ & P).
  split; [exact Hn|]. split; [vm_compute; split; discriminate|].
  apply P. reflexivity.
Defined.

(** X3. With a name longer than 320 bytes the report cannot fit [buf]:
    every fresh read fails with [-EFAULT], whatever the clock, the other
    globals and the caller's memory, which is left as it was; the counter
    is incremented all the same. *)
Theorem long_name_makes_reads_fail
    (HZ : Z) (g : globals) (clk : jiffies_reads) (ubuf : user_buf)
    (count ppos : Z) :
  ppos <= 0 ->
  320 < strlen (student_name g) <= 1024 ->
  proc_read HZ g clk ubuf count ppos =
  ReadResult (- EFAULT) ppos (set_read_count (to_int (read_count g + 1)) g)
    ubuf [copy_failed_line].
Proof.
  intros Hp [Hlo Hhi].
  apply proc_read_long_report_faults; [exact Hp | exact Hhi |].
  destruct (report_len HZ g clk Hhi) as (_ & _ & B).
  unfold MAX_SIZE. lia.
Qed.

Lemma long_name_makes_reads_fail_witness :
  let g := set_student_name Sample.long_name Sample.loaded in
  0 <= 0 /\ 320 < strlen (student_name g) <= 1024 /\
  rr_ret (proc_read Sample.HZ g Sample.clk Sample.page 4096 0) = - EFAULT /\
  rr_user (proc_read Sample.HZ g Sample.clk Sample.page 4096 0)
  = Sample.page.
Proof.
  intros g.
  assert (Hp : 0 <= 0) by lia.
  assert (Hn : 320 < strlen (student_name g) <= 1024)
    by (vm_compute; split; [reflexivity | discriminate]).
  split; [exact Hp|]. split; [exact Hn|].
  rewrite (long_name_makes_reads_fail Sample.HZ g Sample.clk Sample.page
             4096 0 Hp Hn).
  split; reflexivity.
Defined.

(** X4. A report of exactly [MAX_SIZE] bytes is copied and its length
    returned, but [snprintf] kept only [MAX_SIZE - 1] bytes of it: the
    caller receives those and, as the last byte, the NUL that ends [buf]
    in place of the final line feed. *)
Theorem report_of_buffer_size_is_cut
    (HZ : Z) (g : globals) (clk : jiffies_reads) (ubuf : user_buf)
    (count ppos : Z) :
  ppos <= 0 ->
  strlen (student_name g) <= 1024 ->
  let text :=
    report_text HZ (set_read_count (to_int (read_count g + 1)) g) clk in
  strlen text = MAX_SIZE ->
  MAX_SIZE <= ub_writable ubuf ->
  let r := proc_read HZ g clk ubuf count ppos in
  rr_ret r = MAX_SIZE /\ rr_ppos r = MAX_SIZE /\
  ub_data (rr_user r)
  = take (MAX_SIZE - 1) text ++ NUL ++ drop MAX_SIZE (ub_data ubuf).
Proof.
  intros Hp Hn text Hlen Hw r.
  destruct (report_len HZ g clk Hn) as (E1 & E2 & _). fold text in E1, E2.
  subst r. rewrite proc_read_fresh by exact Hp. fold text.
  rewrite E2, E1, Hlen.
  unfold copy_to_user, MAX_SIZE, INT_MAX in *.
  change (1024 <? 1024) with false. change (2147483647 <? 1024) with false.
  cbn [orb snd fst].
  replace (Z.min 1024 (Z.max 0 (ub_writable ubuf))) with 1024 by lia.
  change (1024 - 1024 =? 0) with true. cbn [negb rr_ret rr_ppos rr_user
    ub_data].
  repeat split.
  rewrite take_all.
  - now rewrite append_assoc.
  - rewrite strlen_append.
    assert (T : strlen (take (1024 - 1) text) <= 1023).
    { unfold take, strlen.
      assert (forall n s, (String.length (substring 0 n s) <= n)%nat) as L.
      { clear. intros n s. revert n.
        induction s as [|c s IH]; intros [|n]; cbn; try lia.
        specialize (IH n). lia. }
      specialize (L (Z.to_nat (1024 - 1)) text). lia. }
    change (strlen NUL) with 1. lia.
Qed.

Lemma report_of_buffer_size_is_cut_witness :
  let g := set_student_name Sample.name_300 Sample.loaded in
  let r := proc_read Sample.HZ g Sample.clk Sample.page 4096 0 in
  0 <= 0 /\ strlen (student_name g) <= 1024 /\
  strlen (report_text Sample.HZ
            (set_read_count (to_int (read_count g + 1)) g) Sample.clk)
  = MAX_SIZE /\
  MAX_SIZE <= ub_writable Sample.page /\
  rr_ret r = MAX_SIZE /\ rr_ppos r = MAX_SIZE.
Proof.
  intros g r.
  assert (Hp : 0 <= 0) by lia.
  assert (Hn : strlen (student_name g) <= 1024)
    by (vm_compute; discriminate).
  assert (Hl : strlen (report_text Sample.HZ
            (set_read_count (to_int (read_count g + 1)) g) Sample.clk)
            = MAX_SIZE) by reflexivity.
  assert (Hw : MAX_SIZE <= ub_writable Sample.page)
    by (vm_compute; discriminate).
  destruct (report_of_buffer_size_is_cut Sample.HZ g Sample.clk Sample.page
              4096 0 Hp Hn Hl Hw) as (A & B & _).
  repeat split; assumption.
Defined.

(** X5. A copy that faults part of the way is not undone: when the
    caller's pointer lets the kernel write only [w] bytes, fewer than the
    report has, the read fails with [-EFAULT] and [*ppos] stays, yet the
    first [w] bytes of the report are in the caller's memory. *)
Theorem faulting_copy_leaves_prefix
    (HZ : Z) (g : globals) (clk : jiffies_reads) (ubuf : user_buf)
    (count ppos : Z) :
  ppos <= 0 ->
  strlen (student_name g) <= 1024 ->
  let text :=
    report_text HZ (set_read_count (to_int (read_count g + 1)) g) clk in
  strlen text < MAX_SIZE ->
  0 <= ub_writable ubuf < strlen text ->
  let r := proc_read HZ g clk ubuf count ppos in
  rr_ret r = - EFAULT /\ rr_ppos r = ppos /\
  ub_data (rr_user r)
  = take (ub_writable ubuf) text ++ drop (ub_writable ubuf) (ub_data ubuf).
Proof.
  intros Hp Hn text Hfit Hw r.
  destruct (report_len HZ g clk Hn) as (E1 & E2 & _). fold text in E1, E2.
  subst r. rewrite proc_read_fresh by exact Hp. fold text.
  rewrite E2.
  unfold copy_to_user, MAX_SIZE, INT_MAX in *.
  destruct (Z.ltb_spec 1024 (strlen text)); [lia|].
  destruct (Z.ltb_spec 2147483647 (strlen text)); [lia|].
  cbn [orb snd fst].
  replace (Z.min (strlen text) (Z.max 0 (ub_writable ubuf)))
    with (ub_writable ubuf) by lia.
  destruct (Z.eqb_spec (strlen text - ub_writable ubuf) 0); [lia|].
  cbn [negb rr_ret rr_ppos rr_user ub_data].
  repeat split.
  rewrite (take_all (1024 - 1) text) by lia.
  rewrite take_append_le by lia. reflexivity.
Qed.

Lemma faulting_copy_leaves_prefix_witness :
  let ubuf := UserBuf 100 "" in
  let r := proc_read Sample.HZ Sample.loaded Sample.clk ubuf 4096 0 in
  0 <= 0 /\ strlen (student_name Sample.loaded) <= 1024 /\
  rr_ret r = - EFAULT /\ strlen (ub_data (rr_user r)) = 100.
Proof.
  intros ubuf r.
  assert (Hp : 0 <= 0) by lia.
  pose proof (ok_student_name _ sample_loaded_ok) as Hn.
  assert (Hfit : strlen (report_text Sample.HZ
            (set_read_count (to_int (read_count Sample.loaded + 1))
               Sample.loaded) Sample.clk) < MAX_SIZE) by reflexivity.
  assert (Hw : 0 <= ub_writable ubuf
               < strlen (report_text Sample.HZ
                   (set_read_count (to_int (read_count Sample.loaded + 1))
                      Sample.loaded) Sample.clk))
    by (vm_compute; split; [discriminate | reflexivity]).
  destruct (faulting_copy_leaves_prefix Sample.HZ Sample.loaded Sample.clk
              ubuf 4096 0 Hp Hn Hfit Hw) as (A & _ & D).
  split; [exact Hp|]. split; [exact Hn|]. split; [exact A|].
  unfold r. rewrite D. reflexivity.
Defined.

(* ================================================================= *)
(** ** Names that fit, destinations that cannot be written *)

Lemma strlen_put_dec_digits (room : nat) : forall n k acc,
  (1 <= k)%nat -> 0 <= n < 10 ^ Z.of_nat k ->
  strlen (put_dec room n acc) <= strlen acc + Z.of_nat k.
Proof.
  induction room as [|room IH]; intros n k acc Hk Hn; cbn [put_dec];
    [lia|].
  destruct (Z.eqb_spec (n / 10) 0) as [E|E].
  - unfold strlen; cbn [String.length]; lia.
  - assert (Hq : 0 < n / 10).
    { pose proof (Z.div_pos n 10 ltac:(lia) ltac:(lia)). lia. }
    destruct k as [|[|k]]; [lia| |].
    + change (10 ^ Z.of_nat 1) with 10 in Hn.
      rewrite Z.div_small in Hq by lia. lia.
    + specialize (IH (n / 10) (S k) (String (digit (n mod 10)) acc)
                    ltac:(lia)).
      rewrite (Nat2Z.inj_succ (S k)), Z.pow_succ_r in Hn by lia.
      unfold strlen in *. cbn [String.length] in IH.
      assert (0 <= n / 10 < 10 ^ Z.of_nat (S k)).
      { split; [lia|]. apply Z.div_lt_upper_bound; lia. }
      specialize (IH H). lia.
Qed.

(** An [int] takes at most 11 characters. *)
Lemma strlen_dec_int_is_int (n : Z) : is_int n -> strlen (dec_int n) <= 11.
Proof.
  unfold is_int, INT_MIN, INT_MAX, dec_int. intros H.
  destruct (Z.ltb_spec n 0).
  - rewrite strlen_append. change (strlen "-") with 1.
    pose proof (strlen_put_dec_digits 20 (- n) 10 "" ltac:(lia)) as P.
    change (10 ^ Z.of_nat 10) with 10000000000 in P.
    change (strlen "") with 0 in P. lia.
  - pose proof (strlen_put_dec_digits 20 n 10 "" ltac:(lia)) as P.
    change (10 ^ Z.of_nat 10) with 10000000000 in P.
    change (strlen "") with 0 in P. lia.
Qed.

(** X6. With a name of at most 232 bytes the report is shorter than
    [buf] whatever the numbers are, so a fresh read into memory that
    takes [MAX_SIZE - 1] bytes always succeeds: it returns the length of
    the report, stores the whole report and nothing after it, and prints
    the line that reports the read. *)
Theorem short_name_read_succeeds
    (HZ : Z) (g : globals) (clk : jiffies_reads) (ubuf : user_buf)
    (count ppos : Z) :
  ppos <= 0 ->
  is_int (group g) -> is_int (subgroup g) ->
  strlen (student_name g) <= 232 ->
  MAX_SIZE - 1 <= ub_writable ubuf ->
  let g1 := set_read_count (to_int (read_count g + 1)) g in
  let text := report_text HZ g1 clk in
  strlen text < MAX_SIZE /\
  proc_read HZ g clk ubuf count ppos =
  ReadResult (strlen text) (strlen text) g1
    (UserBuf (ub_writable ubuf) (text ++ drop (strlen text) (ub_data ubuf)))
    [read_line (read_count g1)].
Proof.
  intros Hp Hg Hs Hn Hw g1 text.
  assert (Hfit : strlen text < MAX_SIZE).
  { subst text. unfold report_text. rewrite strlen_unlines_report.
    cbn [fields_of f_name f_group f_subgroup f_loaded_at f_uptime
         f_read_count f_jiffies].
    change (student_name g1) with (student_name g).
    change (group g1) with (group g).
    change (subgroup g1) with (subgroup g).
    change (read_count g1) with (to_int (read_count g + 1)).
    pose proof (strlen_dec_int_is_int (group g) Hg).
    pose proof (strlen_dec_int_is_int (subgroup g) Hs).
    pose proof (strlen_dec_int_is_int _ (to_int_is_int (read_count g + 1))).
    pose proof (strlen_dec_ulong (load_time g1)).
    pose proof (strlen_dec_ulong
                  (uptime_seconds HZ (j_uptime clk) (load_time g1))).
    pose proof (strlen_dec_ulong (j_report clk)).
    unfold MAX_SIZE. lia. }
  split; [exact Hfit|].
  apply proc_read_delivers; [exact Hp | lia | exact Hfit |].
  fold g1. fold text. unfold MAX_SIZE in *. lia.
Qed.

Lemma short_name_read_succeeds_witness :
  0 <= 0 /\ is_int (group Sample.loaded) /\ is_int (subgroup Sample.loaded) /\
  strlen (student_name Sample.loaded) <= 232 /\
  MAX_SIZE - 1 <= ub_writable Sample.page /\
  rr_ret (proc_read Sample.HZ Sample.loaded Sample.clk Sample.page 4096 0)
  = 738.
Proof.
  assert (Hp : 0 <= 0) by lia.
  pose proof (ok_group _ sample_loaded_ok) as Hg.
  pose proof (ok_subgroup _ sample_loaded_ok) as Hs.
  assert (Hn : strlen (student_name Sample.loaded) <= 232)
    by (vm_compute; discriminate).
  assert (Hw : MAX_SIZE - 1 <= ub_writable Sample.page)
    by (vm_compute; discriminate).
  destruct (short_name_read_succeeds Sample.HZ Sample.loaded Sample.clk
              Sample.page 4096 0 Hp Hg Hs Hn Hw) as [_ E].
  split; [exact Hp|]. split; [exact Hg|]. split; [exact Hs|].
  split; [exact Hn|]. split; [exact Hw|].
  rewrite E. reflexivity.
Defined.

(** X7. A destination that cannot be written never gets past the start:
    in a run of reads from position 0 whose callers all pass such a
    pointer, every call returns [-EFAULT], [*ppos] stays 0 (no call ever
    returns 0), and each call adds to [read_count]: after the i-th call
    it is the value before the run plus i, in [int] arithmetic. *)
Theorem unwritable_destination_never_ends
    (HZ : Z) (cs : list read_call) (g : globals) (i : nat)
    (r : read_result) :
  strlen (student_name g) <= 1024 ->
  Forall (fun c => ub_writable (c_ubuf c) <= 0) cs ->
  nth_error (session HZ g 0 cs) i = Some r ->
  rr_ret r = - EFAULT /\ rr_ppos r = 0 /\
  read_count (rr_globals r) = to_int (read_count g + Z.of_nat (S i)).
Proof.
  intros Hn Hall. revert g i r Hn.
  induction Hall as [|c cs Hc _ IH]; intros g i r Hn E.
  - destruct i; discriminate E.
  - cbn [session] in E.
    set (r0 := proc_read HZ g (c_clk c) (c_ubuf c) (c_count c) 0) in *.
    assert (F : copy_fails HZ g (c_clk c) (c_ubuf c)).
    { apply copy_fails_cases; [exact Hn|]. right.
      destruct (report_len HZ g (c_clk c) Hn) as (_ & _ & B).
      pose proof (strlen_nonneg (student_name g)). lia. }
    destruct (proc_read_fresh_cases HZ g (c_clk c) (c_ubuf c) (c_count c) 0
                ltac:(lia)) as [Hg [(_ & R & P & _)|(NF & _)]];
      [|contradiction].
    fold r0 in Hg, R, P.
    destruct i as [|i]; cbn [nth_error] in E.
    + inversion E; subst r. rewrite Hg, read_count_set.
      repeat split; assumption.
    + rewrite P in E. apply IH in E; [|rewrite Hg; exact Hn].
      destruct E as (A & B & C). split; [exact A|]. split; [exact B|].
      rewrite C, Hg, read_count_set, to_int_add_l. f_equal. lia.
Qed.

Lemma unwritable_destination_never_ends_witness :
  let c := ReadCall Sample.clk Sample.bad_pointer 4096 in
  strlen (student_name Sample.loaded) <= 1024 /\
  Forall (fun c => ub_writable (c_ubuf c) <= 0) [c; c; c] /\
  exists r, nth_error (session Sample.HZ Sample.loaded 0 [c; c; c]) 2 = Some r
            /\ rr_ret r = - EFAULT /\ rr_ppos r = 0 /\
            read_count (rr_globals r) = 3.
Proof.
  intros c.
  pose proof (ok_student_name _ sample_loaded_ok) as Hn.
  assert (Hall : Forall (fun c => ub_writable (c_ubuf c) <= 0) [c; c; c])
    by (repeat constructor; vm_compute; discriminate).
  split; [exact Hn|]. split; [exact Hall|].
  eexists. split; [reflexivity|].
  exact (unwritable_destination_never_ends Sample.HZ [c; c; c]
           Sample.loaded 2 _ Hn Hall eq_refl).
Defined.

(* ================================================================= *)
(** ** The report can be read back *)

Lemma strip_prefix_append (p a : string) : strip_prefix p (p ++ a) = Some a.
Proof.
  induction p as [|c p IH]; cbn [append strip_prefix]; [reflexivity|].
  now rewrite Ascii.eqb_refl.
Qed.

Lemma strip_suffix_append (suf a : string) :
  strip_suffix suf (a ++ suf) = Some a.
Proof.
  induction a as [|c a IH].
  - cbn [append]. destruct suf; cbn [strip_suffix];
      now rewrite String.eqb_refl.
  - change (String c a ++ suf) with (String c (a ++ suf)).
    cbn [strip_suffix].
    destruct (String.eqb (String c (a ++ suf)) suf) eqn:E.
    + apply String.eqb_eq in E.
      apply (f_equal String.length) in E.
      cbn [String.length] in E. rewrite length_append in E. lia.
    + now rewrite IH.
Qed.

Lemma parse_field_line (label unit v : string) :
  parse_field label unit (label ++ v ++ unit) = Some v.
Proof.
  unfold parse_field. now rewrite strip_prefix_append, strip_suffix_append.
Qed.

Lemma parse_field_line_nounit (label v : string) :
  parse_field label "" (label ++ v) = Some v.
Proof.
  rewrite <- (append_nil_r v) at 1. apply parse_field_line.
Qed.

(** The text of a report determines its fields. *)
Lemma parse_report_unlines (f : report_fields) :
  fields_ok f -> parse_report (unlines (report_lines f)) = Some f.
Proof.
  intros [Hn Hg Hs Hl Hu Hc Hj]. unfold parse_report.
  rewrite lines_unlines by (apply report_lines_no_lf; exact Hn).
  cbn [report_lines app].
  rewrite !String.eqb_refl. cbn [andb].
  rewrite !parse_field_line_nounit, !parse_field_line.
  rewrite !parse_dec_int, !parse_dec_ulong by assumption.
  now destruct f.
Qed.

Lemma uptime_seconds_is_ulong (HZ jiffies load : Z) :
  0 < HZ -> is_ulong (uptime_seconds HZ jiffies load).
Proof.
  intros Hz. unfold uptime_seconds.
  pose proof (to_ulong_is_ulong (jiffies - load)) as U.
  unfold is_ulong, ULONG_MODULUS in *. split.
  - apply Z.div_pos; lia.
  - apply Z.div_lt_upper_bound; nia.
Qed.

(** X8. What a successful fresh read delivers can be read back field by
    field: when the report fits [buf] and the name has no line feed,
    parsing the bytes the caller received gives the name, group and
    subgroup the globals held at the call, [load_time], the uptime in
    seconds, the incremented count and the value read from [jiffies]. Two
    reads that deliver the same bytes therefore rendered the same
    values. *)
Theorem delivered_report_parses_back
    (HZ : Z) (g : globals) (clk : jiffies_reads) (ubuf : user_buf)
    (count ppos : Z) :
  0 < HZ ->
  ppos <= 0 ->
  globals_ok g ->
  is_ulong (j_report clk) ->
  mem_char (ascii_of_nat 10) (student_name g) = false ->
  ~ copy_fails HZ g clk ubuf ->
  strlen (report_text HZ (set_read_count (to_int (read_count g + 1)) g) clk)
  < MAX_SIZE ->
  let r := proc_read HZ g clk ubuf count ppos in
  parse_report (take (rr_ret r) (ub_data (rr_user r)))
  = Some (Fields (student_name g) (group g) (subgroup g) (load_time g)
            (to_ulong (j_uptime clk - load_time g) / HZ)
            (to_int (read_count g + 1)) (j_report clk)).
Proof.
  intros Hz Hp [Hrc Hlt Hn Hg Hs] Hj Hlf Hc Hfit r.
  destruct (proc_read_delivers_report HZ g clk ubuf count ppos Hp Hn Hc
              Hfit) as (_ & _ & D).
  fold r in D. rewrite D. unfold report_text.
  apply (parse_report_unlines
           (fields_of HZ (set_read_count (to_int (read_count g + 1)) g) clk)).
  constructor; cbn [fields_of f_name f_group f_subgroup f_loaded_at
    f_uptime f_read_count f_jiffies]; try assumption.
  - now apply uptime_seconds_is_ulong.
  - apply to_int_is_int.
Qed.

Lemma delivered_report_parses_back_witness :
  let r := proc_read Sample.HZ Sample.loaded Sample.clk Sample.page 4096 0 in
  0 < Sample.HZ /\ 0 <= 0 /\ globals_ok Sample.loaded /\
  is_ulong (j_report Sample.clk) /\
  mem_char (ascii_of_nat 10) (student_name Sample.loaded) = false /\
  ~ copy_fails Sample.HZ Sample.loaded Sample.clk Sample.page /\
  parse_report (take (rr_ret r) (ub_data (rr_user r)))
  = Some (Fields "Kuharev Kirill" 9 2 4295123456 120 1 4295243456).
Proof.
  intros r.
  assert (Hz : 0 < Sample.HZ) by reflexivity.
  assert (Hp : 0 <= 0) by lia.
  assert (Hj : is_ulong (j_report Sample.clk))
    by (vm_compute; intuition discriminate).
  assert (Hlf : mem_char (ascii_of_nat 10) (student_name Sample.loaded)
                = false) by reflexivity.
  assert (Hfit : strlen (report_text Sample.HZ
            (set_read_count (to_int (read_count Sample.loaded + 1))
               Sample.loaded) Sample.clk) < MAX_SIZE) by reflexivity.
  split; [exact Hz|]. split; [exact Hp|]. split; [exact sample_loaded_ok|].
  split; [exact Hj|]. split; [exact Hlf|].
  split; [exact sample_read_succeeds|].
  exact (delivered_report_parses_back Sample.HZ Sample.loaded Sample.clk
           Sample.page 4096 0 Hz Hp sample_loaded_ok Hj Hlf
           sample_read_succeeds Hfit).
Defined.

(* ================================================================= *)
(** ** Loading, reading, unloading *)

Lemma read_line_text (n : Z) :
  read_line n
  = LogLine KERN_INFO
      ("proc_module: /proc/student_info read (count: " ++ dec_int n ++ ")"
       ++ LF).
Proof. reflexivity. Qed.

(** X9. A call prints at most one line: none when it returns 0, the
    error line at [KERN_ERR] when it returns [-EFAULT], and otherwise, at
    [KERN_INFO], the line that names the file and shows the incremented
    count, the same number the report shows. *)
Theorem proc_read_log
    (HZ : Z) (g : globals) (clk : jiffies_reads) (ubuf : user_buf)
    (count ppos : Z) :
  strlen (student_name g) <= 1024 ->
  let r := proc_read HZ g clk ubuf count ppos in
  (rr_ret r = 0 -> rr_log r = []) /\
  (rr_ret r = - EFAULT ->
   rr_log r = [ LogLine KERN_ERR
                  ("proc_module: Failed to copy data to user space" ++ LF) ]) /\
  (0 < rr_ret r ->
   rr_log r = [ LogLine KERN_INFO
                  ("proc_module: /proc/student_info read (count: "
                   ++ dec_int (to_int (read_count g + 1)) ++ ")" ++ LF) ] /\
   f_read_count (fields_of HZ (rr_globals r) clk)
   = to_int (read_count g + 1)).
Proof.
  intros Hn r. pose proof (strlen_nonneg (student_name g)) as N.
  destruct (Z.ltb_spec 0 ppos) as [Hp|Hp].
  - subst r. rewrite proc_read_eof by exact Hp. cbn [rr_ret rr_log].
    unfold EFAULT. repeat split; intros; try reflexivity; lia.
  - destruct (report_len HZ g clk Hn) as (E1 & _ & B).
    destruct (proc_read_fresh_cases HZ g clk ubuf count ppos Hp)
      as [Hg [(_ & E & _ & L)|(_ & E & _ & L)]]; fold r in Hg, E, L.
    + rewrite E, L. unfold EFAULT. repeat split; intros; try reflexivity;
        lia.
    + rewrite E1 in E. rewrite E, L, Hg, read_count_set, read_line_text.
      unfold EFAULT. split; [intros; lia|]. split; [intros; lia|].
      intros _. split; reflexivity.
Qed.

Lemma proc_read_log_witness :
  let r := proc_read Sample.HZ Sample.loaded Sample.clk Sample.page 4096 0 in
  strlen (student_name Sample.loaded) <= 1024 /\
  rr_log r = [ LogLine KERN_INFO
                 ("proc_module: /proc/student_info read (count: 1)" ++ LF) ].
Proof.
  intros r.
  pose proof (ok_student_name _ sample_loaded_ok) as Hn.
  destruct (proc_read_log Sample.HZ Sample.loaded Sample.clk Sample.page
              4096 0 Hn) as (_ & _ & L).
  split; [exact Hn|].
  destruct L as [L _]; [reflexivity | exact L].
Defined.

Lemma loaded_with_eq (name : string) (grp sub jiffies : Z) :
  loaded_with name grp sub jiffies = Globals true 0 jiffies name grp sub.
Proof. reflexivity. Qed.

(** X11. The first read after a load. When the module was loaded at the
    clock value [j0] with a name of at most 232 bytes on one line, a
    first read [d] ticks later, into memory that takes [MAX_SIZE - 1]
    bytes, delivers the report with the name, group and subgroup given at
    the load, the load time [j0], the uptime [d ÷ HZ] and the count 1. *)
Theorem first_read_after_load
    (HZ : Z) (name : string) (grp sub j0 d : Z) (clk : jiffies_reads)
    (ubuf : user_buf) (count : Z) :
  0 < HZ ->
  strlen name <= 232 ->
  mem_char (ascii_of_nat 10) name = false ->
  is_int grp -> is_int sub -> is_ulong j0 -> is_ulong d ->
  j_uptime clk = to_ulong (j0 + d) ->
  MAX_SIZE - 1 <= ub_writable ubuf ->
  let r := proc_read HZ (loaded_with name grp sub j0) clk ubuf count 0 in
  0 < rr_ret r /\
  lines (take (rr_ret r) (ub_data (rr_user r)))
  = [ box_top; box_title; box_sep;
      "  Name:              " ++ name;
      "  Group:             " ++ dec_int grp;
      "  Subgroup:          " ++ dec_int sub;
      "  Module loaded at:  " ++ dec_ulong j0 ++ " jiffies";
      "  Module uptime:     " ++ dec_ulong (d ÷ HZ) ++ " seconds";
      "  Read count:        1";
      "  Current jiffies:   " ++ dec_ulong (j_report clk);
      box_bottom; "" ].
Proof.
  intros Hz Hn Hlf Hg Hs Hj Hd Hclk Hw r.
  subst r. rewrite loaded_with_eq.
  destruct (short_name_read_succeeds HZ (Globals true 0 j0 name grp sub)
              clk ubuf count 0 ltac:(lia) Hg Hs Hn Hw) as [Hfit E].
  rewrite E. cbn [rr_ret rr_user ub_data].
  destruct (report_len HZ (Globals true 0 j0 name grp sub) clk
              ltac:(cbn [student_name]; lia)) as (_ & _ & B).
  cbn [student_name] in B. pose proof (strlen_nonneg name).
  split; [lia|].
  rewrite take_append. unfold report_text.
  rewrite lines_unlines by (apply report_lines_no_lf; exact Hlf).
  cbn [report_lines fields_of f_name f_group f_subgroup f_loaded_at
       f_uptime f_read_count f_jiffies set_read_count student_name group
       subgroup load_time read_count proc_file app].
  rewrite Hclk, uptime_seconds_ticks by assumption.
  reflexivity.
Qed.

Lemma first_read_after_load_witness :
  let r := proc_read Sample.HZ
             (loaded_with "Petrov Petr" 7 2 4295123456) Sample.clk
             Sample.page 4096 0 in
  0 < Sample.HZ /\ strlen "Petrov Petr" <= 232 /\
  is_int 7 /\ is_int 2 /\ is_ulong 4295123456 /\ is_ulong 120000 /\
  nth_error (lines (take (rr_ret r) (ub_data (rr_user r)))) 3
  = Some "  Name:              Petrov Petr" /\
  nth_error (lines (take (rr_ret r) (ub_data (rr_user r)))) 8
  = Some "  Read count:        1".
Proof.
  intros r.
  assert (Hz : 0 < Sample.HZ) by reflexivity.
  assert (Hn : strlen "Petrov Petr" <= 232) by (vm_compute; discriminate).
  assert (Hg : is_int 7) by (vm_compute; intuition discriminate).
  assert (Hs : is_int 2) by (vm_compute; intuition discriminate).
  assert (Hj : is_ulong 4295123456) by (vm_compute; intuition discriminate).
  assert (Hd : is_ulong 120000) by (vm_compute; intuition discriminate).
  destruct (first_read_after_load Sample.HZ "Petrov Petr" 7 2 4295123456
              120000 Sample.clk Sample.page 4096 Hz Hn eq_refl Hg Hs Hj Hd
              eq_refl ltac:(vm_compute; discriminate)) as [_ L].
  fold r in L.
  repeat (split; [assumption|]).
  rewrite L. split; reflexivity.
Defined.

Lemma count_fresh_nonneg (es : list host_event) : 0 <= count_fresh es.
Proof.
  induction es as [|e es IH]; cbn [count_fresh]; [lia|].
  destruct e; try exact IH. destruct (0 <? ppos); lia.
Qed.

(** While the module stays loaded, the events change [read_count] by the
    number of reads that reach line 63 and leave [load_time] alone. *)
Lemma host_run_loaded (HZ : Z) (es : list host_event) :
  forall (g : globals) (act : option Z),
    forallb stays_loaded es = true ->
    proc_file g = true ->
    is_int (read_count g) ->
    exists g',
      host_run HZ (Host (Some g) act) es = Host (Some g') act /\
      proc_file g' = true /\ load_time g' = load_time g /\
      read_count g' = to_int (read_count g + count_fresh es).
Proof.
  unfold host_run.
  induction es as [|e es IH]; intros g act Hes Hpf Hrc.
  - exists g. cbn [fold_left count_fresh]. rewrite Z.add_0_r.
    repeat split; try assumption. symmetry. now apply to_int_small.
  - cbn [forallb] in Hes. apply andb_prop in Hes as [He Hes].
    cbn [fold_left].
    destruct e as [name grp sub j created|c ppos|s|v|v|];
      try discriminate He;
      cbn [host_step h_module h_activated count_fresh].
    + rewrite Hpf, proc_read_globals.
      destruct (Z.ltb_spec 0 ppos) as [Hp|Hp].
      * destruct (IH g act Hes Hpf Hrc) as (g' & R & P & L & C).
        exists g'. repeat split; try assumption.
      * destruct (IH (set_read_count (to_int (read_count g + 1)) g) act Hes
                    Hpf (to_int_is_int _)) as (g' & R & P & L & C).
        exists g'. repeat split; try assumption.
        rewrite C, read_count_set, to_int_add_l. f_equal. lia.
    + destruct (IH (set_student_name s g) act Hes Hpf Hrc)
        as (g' & R & P & L & C).
      exists g'. repeat split; assumption.
    + destruct (IH (set_group v g) act Hes Hpf Hrc) as (g' & R & P & L & C).
      exists g'. repeat split; assumption.
    + destruct (IH (set_subgroup v g) act Hes Hpf Hrc)
        as (g' & R & P & L & C).
      exists g'. repeat split; assumption.
Qed.

(** X12. What the unload prints. After a load and any reads and
    parameter writes, the module still holds the load time of its load,
    and its counter is the number of read calls that arrived at a
    position not past the start, whether their copy succeeded or not
    (calls that returned 0 are not counted), in [int] arithmetic;
    [proc_module_exit] then prints the line that removes the file and the
    line that shows this total. *)
Theorem exit_reports_attempts
    (HZ : Z) (name : string) (grp sub jiffies : Z) (es : list host_event) :
  forallb stays_loaded es = true ->
  exists g',
    h_module (host_run HZ host_unloaded
                (Insmod name grp sub jiffies true :: es)) = Some g' /\
    load_time g' = jiffies /\
    read_count g' = to_int (count_fresh es) /\
    (count_fresh es <= INT_MAX -> read_count g' = count_fresh es) /\
    proc_module_exit g'
    = [ LogLine KERN_INFO ("proc_module: Removed /proc/student_info" ++ LF);
        LogLine KERN_INFO
          ("proc_module: Module unloaded. Total reads: "
           ++ dec_int (read_count g') ++ LF) ].
Proof.
  intros Hes.
  destruct (host_run_loaded HZ es (loaded_with name grp sub jiffies)
              (Some jiffies) Hes eq_refl)
    as (g' & R & P & L & C).
  { rewrite loaded_with_eq. cbn [read_count]. unfold is_int, INT_MIN,
      INT_MAX. lia. }
  exists g'.
  assert (E : host_run HZ host_unloaded
                (Insmod name grp sub jiffies true :: es)
              = Host (Some g') (Some jiffies)) by exact R.
  rewrite E. cbn [h_module].
  rewrite loaded_with_eq in L, C. cbn [load_time read_count] in L, C.
  split; [reflexivity|]. split; [exact L|]. split; [exact C|].
  split.
  - intros Hmax. rewrite C. apply to_int_small.
    pose proof (count_fresh_nonneg es). in_range.
  - unfold proc_module_exit. rewrite P. reflexivity.
Qed.

Lemma exit_reports_attempts_witness :
  let good := ReadCall Sample.clk Sample.page 4096 in
  let bad := ReadCall Sample.clk Sample.bad_pointer 4096 in
  let es := [ Read good 0; Read good 738; Read bad 0; SetGroup 7;
              Read good 0 ] in
  forallb stays_loaded es = true /\
  exists g',
    h_module (host_run Sample.HZ host_unloaded
                (Insmod "Kuharev Kirill" 9 2 4295123456 true :: es))
    = Some g' /\
    read_count g' = 3.
Proof.
  intros good bad es.
  assert (Hes : forallb stays_loaded es = true) by reflexivity.
  destruct (exit_reports_attempts Sample.HZ "Kuharev Kirill" 9 2 4295123456
              es Hes) as (g' & M & _ & _ & C & _).
  split; [exact Hes|].
  exists g'. split; [exact M|].
  apply C. vm_compute. discriminate.
Defined.

(** X13. The number of bytes a successful fresh read returns: the 698
    bytes the format has apart from its seven directives, the bytes of
    the name, and the digits (and signs) of the six numbers. *)
Theorem returned_length
    (HZ : Z) (g : globals) (clk : jiffies_reads) (ubuf : user_buf)
    (count ppos : Z) :
  ppos <= 0 ->
  strlen (student_name g) <= 1024 ->
  let r := proc_read HZ g clk ubuf count ppos in
  rr_ret r <> - EFAULT ->
  rr_ret r
  = 698 + strlen (student_name g) + strlen (dec_int (group g))
    + strlen (dec_int (subgroup g)) + strlen (dec_ulong (load_time g))
    + strlen (dec_ulong (to_ulong (j_uptime clk - load_time g) / HZ))
    + strlen (dec_int (to_int (read_count g + 1)))
    + strlen (dec_ulong (j_report clk)).
Proof.
  intros Hp Hn r Hok.
  destruct (report_len HZ g clk Hn) as (E1 & _ & _).
  destruct (proc_read_fresh_cases HZ g clk ubuf count ppos Hp)
    as [_ [(_ & E & _)|(_ & E & _)]]; fold r in E; [contradiction|].
  rewrite E, E1. unfold report_text.
  rewrite strlen_unlines_report. reflexivity.
Qed.

Lemma returned_length_witness :
  let r := proc_read Sample.HZ Sample.loaded Sample.clk Sample.page 4096 0 in
  0 <= 0 /\ strlen (student_name Sample.loaded) <= 1024 /\
  rr_ret r <> - EFAULT /\
  rr_ret r = 698 + 14 + 1 + 1 + 10 + 3 + 1 + 10.
Proof.
  intros r.
  assert (Hp : 0 <= 0) by lia.
  pose proof (ok_student_name _ sample_loaded_ok) as Hn.
  assert (Hok : rr_ret r <> - EFAULT) by (vm_compute; discriminate).
  split; [exact Hp|]. split; [exact Hn|]. split; [exact Hok|].
  unfold r.
  rewrite (returned_length Sample.HZ Sample.loaded Sample.clk Sample.page
             4096 0 Hp Hn Hok).
  reflexivity.
Defined.
